(** * The ransomware defender of [ml_defender.py]: a shallow embedding

    The class [AdvancedRansomwareDefender] is embedded method by method.
    Timestamps ([datetime]) and durations ([timedelta]) are integers counting
    microseconds, the resolution of both Python types.  Everything the handler
    observes in its surroundings while it treats one event (the readings of
    [datetime.now()], file contents, the process table, the results of the OS
    calls) is gathered in a record [world]; a method that raises returns
    [Raise e], and what it logs or asks of the OS is kept in a trace. *)

From Stdlib Require Import ZArith NArith QArith List String Ascii Bool Lia Arith.
From Stdlib Require Import Strings.Byte Numbers.DecimalString.
Import ListNotations.

Local Open Scope string_scope.
Local Open Scope Z_scope.
Local Open Scope list_scope.

(** ** Exceptions, and computations that log, call the OS and may raise *)

Inductive exn_class : Type :=
  | AttributeError | TypeError | IndexError | ValueError
  | OSError | PermissionError | FileNotFoundError | FileExistsError
  | NoSuchProcess | AccessDenied | SMTPException.

(** An exception object: its class and the text [str(e)] gives. *)
Record exception : Type := Exn { exn_class_of : exn_class; exn_str : string }.

Inductive exc (A : Type) : Type :=
  | Ok (a : A)
  | Raise (e : exception).
Arguments Ok {A} a.
Arguments Raise {A} e.

Inductive level : Type := WARNING | ERROR | CRITICAL.

(** The calls that act on the machine, as the response sequence makes them. *)
Inductive syscall : Type :=
  | Kill (pid : Z)
  | Makedirs (path : string)
  | Listdir (path : string)
  | Move (src item : string)
  | OsSystem (cmd : string)
  | SmtpSend (rcpt : string).

Inductive effect : Type :=
  | Log (lvl : level) (text : string)
  | Call (c : syscall).

(** A computation: the trace it leaves, then its value or the exception that
    ended it.  The trace of a computation that raises is kept. *)
Definition M (A : Type) : Type := (list effect * exc A)%type.

Definition ret {A} (a : A) : M A := ([], Ok a).
Definition raise {A} (e : exception) : M A := ([], Raise e).
Definition emit (ef : effect) : M unit := ([ef], Ok tt).
Definition lift {A} (r : exc A) : M A := ([], r).
Definition call {A} (c : syscall) (r : exc A) : M A := ([Call c], r).

Definition bind {A B} (m : M A) (k : A -> M B) : M B :=
  match m with
  | (t, Ok a) => let (t', r) := k a in (t ++ t', r)
  | (t, Raise e) => (t, Raise e)
  end.

(** [try: m  except Exception as e: h e] *)
Definition try_except {A} (m : M A) (h : exception -> M A) : M A :=
  match m with
  | (t, Ok a) => (t, Ok a)
  | (t, Raise e) => let (t', r) := h e in (t ++ t', r)
  end.

(** [try: m  except (C1, C2, ...) as e: h e]: other classes pass through. *)
Definition try_except_of {A} (catches : exn_class -> bool)
    (m : M A) (h : exception -> M A) : M A :=
  match m with
  | (t, Ok a) => (t, Ok a)
  | (t, Raise e) =>
      if catches (exn_class_of e)
      then let (t', r) := h e in (t ++ t', r)
      else (t, Raise e)
  end.

Declare Scope py_scope.
Delimit Scope py_scope with py.
Notation "x <- m ;; k" := (bind m (fun x => k))
  (at level 61, m at next level, right associativity) : py_scope.
Notation "m ;;; k" := (bind m (fun _ => k))
  (at level 61, right associativity) : py_scope.
Local Open Scope py_scope.

Definition trace_of {A} (m : M A) : list effect := fst m.
Definition value_of {A} (m : M A) : exc A := snd m.

(** ** Strings and bytes as Python treats them *)

(** [str.lower] on a str of ASCII characters: the letters A to Z are
    folded and every other character is kept.  On characters outside ASCII
    Python folds by the Unicode tables, which are not embedded here; the
    process selection, which compares names and paths a user does not
    choose, takes the lowering as a parameter instead (section
    [Lowering]). *)
Definition lower_ascii (c : ascii) : ascii :=
  let n := nat_of_ascii c in
  if ((65 <=? n) && (n <=? 90))%nat then ascii_of_nat (n + 32) else c.

Fixpoint lower (s : string) : string :=
  match s with
  | EmptyString => EmptyString
  | String c s' => String (lower_ascii c) (lower s')
  end.

Definition startswith (s p : string) : bool := String.prefix p s.

Definition endswith (s suffix : string) : bool :=
  let n := String.length s in
  let k := String.length suffix in
  ((k <=? n)%nat && String.eqb (String.substring (n - k) k s) suffix).

(** [sub in s] *)
Fixpoint contains (sub s : string) : bool :=
  String.prefix sub s ||
  match s with
  | EmptyString => false
  | String _ s' => contains sub s'
  end.

Definition str_of_nat (n : nat) : string := NilZero.string_of_uint (Nat.to_uint n).
Definition str_of_Z (z : Z) : string := NilZero.string_of_int (Z.to_int z).

(** [repr] of a list of plain strings: ['a', 'b']. *)
Definition repr_list (l : list string) : string :=
  ("[" ++ String.concat ", " (map (fun s => "'" ++ s ++ "'") l) ++ "]")%string.

(** [bytes.startswith] *)
Fixpoint bytes_startswith (data p : list byte) : bool :=
  match p, data with
  | [], _ => true
  | _ :: _, [] => false
  | a :: p', b :: data' => Byte.eqb a b && bytes_startswith data' p'
  end.

(** [data.count(x)] for an integer [x]. *)
Definition bytes_count (data : list byte) (x : N) : nat :=
  List.length (filter (fun b => N.eqb (Byte.to_N b) x) data).

(** [range(n)] *)
Definition range (n : nat) : list N := map N.of_nat (seq 0 n).

Definition PNG_magic : list byte := [x89; "P"; "N"; "G"]%byte.
Definition JPEG_magic : list byte := [xff; xd8]%byte.
Definition PDF_magic : list byte := ["%"; "P"; "D"; "F"]%byte.

(** ** The defender object and what it observes *)

(** The loaded model with its scaler: [model.predict(scaler.transform([f]))[0]]. *)
Definition ml_model : Type := list Q -> exc Z.

(** The attributes of [AdvancedRansomwareDefender] the handler reads or
    writes.  [cooldown_period] is a [timedelta], in microseconds. *)
Record defender : Type := {
  watch_path : string;
  alert_threshold : Z;
  cooldown_period : Z;
  admin_email : option string;
  model : option ml_model;
  suspicion_score : Z;
  last_alert : option Z;
  file_operations : list Z
}.

Definition set_file_operations (self : defender) (ops : list Z) : defender :=
  {| watch_path := watch_path self; alert_threshold := alert_threshold self;
     cooldown_period := cooldown_period self; admin_email := admin_email self;
     model := model self; suspicion_score := suspicion_score self;
     last_alert := last_alert self; file_operations := ops |}.

Definition set_suspicion_score (self : defender) (s : Z) : defender :=
  {| watch_path := watch_path self; alert_threshold := alert_threshold self;
     cooldown_period := cooldown_period self; admin_email := admin_email self;
     model := model self; suspicion_score := s;
     last_alert := last_alert self; file_operations := file_operations self |}.

Definition set_last_alert (self : defender) (t : Z) : defender :=
  {| watch_path := watch_path self; alert_threshold := alert_threshold self;
     cooldown_period := cooldown_period self; admin_email := admin_email self;
     model := model self; suspicion_score := suspicion_score self;
     last_alert := Some t; file_operations := file_operations self |}.

Definition microsecond : Z := 1.
Definition second : Z := 1000000.
Definition minute : Z := 60 * second.
Definition day : Z := 86400 * second.

(** [timedelta(minutes=n)] *)
Definition timedelta_minutes (n : Z) : Z := n * minute.

(** The [seconds] attribute of a [timedelta]: a timedelta is kept as days,
    seconds in [0, 86400) and microseconds in [0, 10^6), the days taking the
    sign. *)
Definition timedelta_seconds (d : Z) : Z := (d mod day) / second.

(** What [__init__] leaves, given the absolute watch path, the values read
    from the configuration (fallbacks 10 and 5) and the model if one
    loaded. *)
Definition __init__ (abs_watch_path : string) (cfg_alert_threshold cfg_cooldown_minutes : Z)
    (cfg_admin_email : option string) (loaded : option ml_model) : defender :=
  {| watch_path := abs_watch_path;
     alert_threshold := cfg_alert_threshold;
     cooldown_period := timedelta_minutes cfg_cooldown_minutes;
     admin_email := cfg_admin_email;
     model := loaded;
     suspicion_score := 0;
     last_alert := None;
     file_operations := [] |}.

(** One row of [psutil.process_iter([...])]: a field the process denies
    access to comes as [None]. *)
Record proc_info : Type := {
  pid : Z;
  name : option string;
  exe : option string;
  cpu_percent : option Q;
  memory_percent : option Q
}.

(** What the handler observes while it treats one event. *)
Record world : Type := {
  (** [datetime.now()] at line 179, where the timestamp is appended *)
  now_append : Z;
  (** [datetime.now()] at line 183, read anew for each element of the list,
      the elements numbered from 0 *)
  now_prune : nat -> Z;
  (** [datetime.now()] at line 160, in the burst detector *)
  now_eval : Z;
  (** [datetime.now()] at line 198, [current_time] *)
  now_alert : Z;
  (** [open(path, 'rb')] and reading it: the content, or the error *)
  file_read : string -> exc (list byte);
  (** the six [psutil] readings of [_get_system_features] *)
  psutil_sample : exc (list Q);
  os_path_basename : string -> string;
  os_path_join : string -> string -> string;
  process_iter : list proc_info;
  kill : Z -> exc unit;
  makedirs : string -> exc unit;
  listdir : string -> exc (list string);
  isfile : string -> bool;
  move : string -> exc unit;
  (** [os.system(cmd)]: the exit status, which the callers drop *)
  os_system : string -> exc Z;
  (** lines 295 to 304: building the [EmailMessage] for an address, with
      the host name and the time in its text; it returns or it raises (a
      header value of several lines is refused with a ValueError) *)
  compose_message : string -> exc unit;
  (** lines 306 and 307: connecting to the SMTP server of localhost and
      sending the message *)
  smtp_send : string -> exc unit
}.

(** A [watchdog] event, as far as [on_modified] looks at it. *)
Record fs_event : Type := { is_directory : bool; src_path : string }.

(** ** Content heuristics *)

(** [x > y] on the numbers Python holds as floats. *)
Definition Qgtb (x y : Q) : bool := negb (Qle_bool x y).

(** [p_x.bit_length()]: [p_x] is a [float], the quotient of two [int]s by
    [/], and [float] has no attribute [bit_length] (only [int] has one). *)
Definition float_bit_length (p_x : Q) : exc Z :=
  Raise (Exn AttributeError "'float' object has no attribute 'bit_length'").

(** The body of [for x in range(256)], over the values of [x] still to come. *)
Fixpoint entropy_loop (data : list byte) (xs : list N) (entropy : Q) : exc Q :=
  match xs with
  | [] => Ok entropy
  | x :: xs' =>
      let p_x := (Z.of_nat (bytes_count data x) # Pos.of_nat (List.length data))%Q in
      if Qgtb p_x 0 then
        match float_bit_length p_x with
        | Ok bl => entropy_loop data xs' (entropy + - p_x * (inject_Z bl - 1))%Q
        | Raise e => Raise e
        end
      else entropy_loop data xs' entropy
  end.

Definition _calculate_entropy (data : list byte) : exc Q :=
  match data with
  | [] => Ok 0%Q
  | _ :: _ => entropy_loop data (range 256) 0%Q
  end.

(** [f.read(n)] on a freshly opened file. *)
Definition read_window (w : world) (filepath : string) (n : nat) : exc (list byte) :=
  match file_read w filepath with
  | Ok content => Ok (firstn n content)
  | Raise e => Raise e
  end.

(** The 8192 of [f.read(8192)]. *)
Definition window_size : nat := Z.to_nat 8192.

Definition _detect_encryption (w : world) (filepath : string) : M bool :=
  try_except
    (data <- lift (read_window w filepath window_size) ;;
     entropy <- lift (_calculate_entropy data) ;;
     if Qgtb entropy 7 then ret true
     else if negb (bytes_startswith data PNG_magic)
             && negb (bytes_startswith data JPEG_magic)
             && negb (bytes_startswith data PDF_magic)
     then ret true
     else ret false)
    (fun e =>
       emit (Log WARNING ("Could not analyze " ++ filepath ++ ": " ++ exn_str e)%string) ;;;
       ret false).

(** ** Indicator evaluation *)

Definition _get_system_features (w : world) : M (option (list Q)) :=
  try_except
    (features <- lift (psutil_sample w) ;; ret (Some features))
    (fun e =>
       emit (Log ERROR ("Failed to collect system features: " ++ exn_str e)%string) ;;;
       ret None).

Definition suspicious_suffixes : list string :=
  [".encrypted"; ".locked"; ".crypt"; ".ransom"].

(** [l[0]] *)
Definition head_item (l : list Z) : exc Z :=
  match nth_error l 0 with
  | Some x => Ok x
  | None => Raise (Exn IndexError "list index out of range")
  end.

(** The value of the key ['mass_modification']: [and] looks at its right
    operand only when the left one holds. *)
Definition mass_modification (w : world) (ops : list Z) : exc bool :=
  if 15 <? Z.of_nat (List.length ops) then
    match head_item ops with
    | Ok op0 => Ok (timedelta_seconds (now_eval w - op0) <? 10)
    | Raise e => Raise e
    end
  else Ok false.

Definition ml_anomaly (w : world) (self : defender) : M bool :=
  match model self with
  | Some mdl =>
      features <- _get_system_features w ;;
      match features with
      | Some (f :: fs) => label <- lift (mdl (f :: fs)) ;; ret (label =? -1)
      | _ => ret false
      end
  | None => ret false
  end.

(** The dictionary [indicators], its keys in the order they are written. *)
Definition _check_suspicious_activity (w : world) (self : defender)
    (filepath : string) : M (list (string * bool)) :=
  let suspicious_extension :=
    existsb (endswith (lower filepath)) suspicious_suffixes in
  high_entropy <- _detect_encryption w filepath ;;
  burst <- lift (mass_modification w (file_operations self)) ;;
  anomaly <- ml_anomaly w self ;;
  ret [("suspicious_extension", suspicious_extension);
       ("high_entropy", high_entropy);
       ("mass_modification", burst);
       ("ml_anomaly", anomaly)].

(** ** The response sequence *)

(** [v > bound] on a field of [proc.info]: [None > 70] raises. *)
Definition gt_field (v : option Q) (bound : Q) : exc bool :=
  match v with
  | Some x => Ok (Qgtb x bound)
  | None =>
      Raise (Exn TypeError
               "'>' not supported between instances of 'NoneType' and 'int'")
  end.

Definition process_gone (c : exn_class) : bool :=
  match c with
  | NoSuchProcess | AccessDenied => true
  | _ => false
  end.

Section Lowering.

(** [str.lower], as the process selection uses it: nothing is assumed of
    how it folds a character. *)
Variable str_lower : string -> string.

(** [v.lower()] on a field of [proc.info]. *)
Definition lower_field_by (v : option string) : exc string :=
  match v with
  | Some s => Ok (str_lower s)
  | None => Raise (Exn AttributeError "'NoneType' object has no attribute 'lower'")
  end.

(** The condition of the [if] in [_terminate_suspicious_processes], its
    operands evaluated left to right as [or] and [and] do. *)
Definition is_suspicious_process_by (self : defender) (info : proc_info) : M bool :=
  cpu_high <- lift (gt_field (cpu_percent info) 70) ;;
  busy <- (if cpu_high : bool then ret true
           else lift (gt_field (memory_percent info) 30)) ;;
  if busy : bool then
    lname <- lift (lower_field_by (name info)) ;;
    if contains "system" lname then ret false
    else match exe info with
         | None => ret false
         | Some EmptyString => ret false
         | Some path => ret (contains (str_lower (watch_path self)) (str_lower path))
         end
  else ret false.

Fixpoint terminate_loop_by (w : world) (self : defender) (procs : list proc_info)
    (terminated : list (option string)) : M (list (option string)) :=
  match procs with
  | [] => ret terminated
  | info :: rest =>
      terminated' <-
        try_except_of process_gone
          (hit <- is_suspicious_process_by self info ;;
           if hit : bool then
             call (Kill (pid info)) (kill w (pid info)) ;;;
             ret (terminated ++ [name info])
           else ret terminated)
          (fun _ => ret terminated) ;;
      terminate_loop_by w self rest terminated'
  end.

(** [_terminate_suspicious_processes], for a lowering. *)
Definition terminate_suspicious_processes_by (w : world) (self : defender) : M string :=
  terminated <- terminate_loop_by w self (process_iter w) [] ;;
  ret ("Terminated " ++ str_of_nat (List.length terminated) ++ " processes")%string.

End Lowering.

(** The same with [lower] for the lowering, as the handler runs it here. *)
Definition lower_field : option string -> exc string := lower_field_by lower.

Definition is_suspicious_process : defender -> proc_info -> M bool :=
  is_suspicious_process_by lower.

Definition terminate_loop
    : world -> defender -> list proc_info -> list (option string)
      -> M (list (option string)) :=
  terminate_loop_by lower.

Definition _terminate_suspicious_processes : world -> defender -> M string :=
  terminate_suspicious_processes_by lower.

Fixpoint quarantine_loop (w : world) (self : defender) (items : list string)
    (quarantined : nat) : M nat :=
  match items with
  | [] => ret quarantined
  | item :: rest =>
      let item_path := os_path_join w (watch_path self) item in
      encrypted <- (if isfile w item_path then _detect_encryption w item_path
                    else ret false) ;;
      quarantined' <-
        (if encrypted : bool then
           try_except
             (call (Move item_path item) (move w item_path) ;;;
              ret (S quarantined))
             (fun e =>
                emit (Log ERROR
                        ("Failed to quarantine " ++ item ++ ": " ++ exn_str e)%string) ;;;
                ret quarantined)
         else ret quarantined) ;;
      quarantine_loop w self rest quarantined'
  end.

Definition _quarantine_suspicious_files (w : world) (self : defender) : M string :=
  let quarantine_dir := os_path_join w (watch_path self) "QUARANTINE" in
  call (Makedirs quarantine_dir) (makedirs w quarantine_dir) ;;;
  items <- call (Listdir (watch_path self)) (listdir w (watch_path self)) ;;
  quarantined <- quarantine_loop w self items 0%nat ;;
  ret ("Quarantined " ++ str_of_nat quarantined ++ " files")%string.

Definition dquote : string := String (ascii_of_nat 34) EmptyString.

Definition netsh_disable (interface : string) : string :=
  ("netsh interface set interface " ++ dquote ++ interface ++ dquote
   ++ " admin=disable")%string.

Definition _isolate_network (w : world) : M string :=
  try_except
    (call (OsSystem (netsh_disable "Wi-Fi")) (os_system w (netsh_disable "Wi-Fi")) ;;;
     call (OsSystem (netsh_disable "Ethernet")) (os_system w (netsh_disable "Ethernet")) ;;;
     ret "Network disabled")
    (fun e =>
       emit (Log ERROR ("Network isolation failed: " ++ exn_str e)%string) ;;;
       ret "Network isolation failed").

Definition lock_command : string := "rundll32.exe user32.dll,LockWorkStation".

Definition _lock_system (w : world) : M string :=
  try_except
    (call (OsSystem lock_command) (os_system w lock_command) ;;;
     ret "System locked")
    (fun e =>
       emit (Log ERROR ("System lock failed: " ++ exn_str e)%string) ;;;
       ret "System lock failed").

Definition _notify_admin (w : world) (self : defender) : M string :=
  match admin_email self with
  | None => ret "No admin email configured"
  | Some EmptyString => ret "No admin email configured"
  | Some rcpt =>
      try_except
        (lift (compose_message w rcpt) ;;;
         call (SmtpSend rcpt) (smtp_send w rcpt) ;;;
         ret "Admin notified")
        (fun e =>
           emit (Log ERROR ("Notification failed: " ++ exn_str e)%string) ;;;
           ret "Notification failed")
  end.

(** The method returns nothing; the value here is the list [actions] as it
    stands when the method ends, which is what the last line logs. *)
Definition _take_defensive_actions (w : world) (self : defender) : M (list string) :=
  emit (Log CRITICAL "ACTIVATING DEFENSIVE MEASURES!") ;;;
  a1 <- _terminate_suspicious_processes w self ;;
  a2 <- _quarantine_suspicious_files w self ;;
  a3 <- _isolate_network w ;;
  a4 <- _lock_system w ;;
  a5 <- _notify_admin w self ;;
  let actions := [a1; a2; a3; a4; a5] in
  emit (Log CRITICAL ("Defensive actions taken: " ++ repr_list actions)%string) ;;;
  ret actions.

(** ** The suspicion state machine *)

(** The list comprehension of line 182: element number [i] is kept when the
    clock, read for it, is less than a minute past it. *)
Fixpoint prune (now : nat -> Z) (i : nat) (ops : list Z) : list Z :=
  match ops with
  | [] => []
  | op :: ops' =>
      if now i - op <? timedelta_minutes 1
      then op :: prune now (S i) ops'
      else prune now (S i) ops'
  end.

Definition values (indicators : list (string * bool)) : list bool :=
  map snd indicators.

Definition any (vs : list bool) : bool := existsb (fun v => v) vs.

Definition sum (zs : list Z) : Z := fold_left Z.add zs 0.

Definition score_increase_of (indicators : list (string * bool)) : Z :=
  sum (map (fun v : bool => if v then 2 else 0) (values indicators)).

Definition true_keys (indicators : list (string * bool)) : list string :=
  map fst (filter snd indicators).

(** The condition of the [if] at line 199, on the score already raised. *)
Definition firing_condition (self : defender) (current_time : Z) : bool :=
  (alert_threshold self <=? suspicion_score self) &&
  match last_alert self with
  | None => true
  | Some t => cooldown_period self <? current_time - t
  end.

(** The text of the warning of line 191. *)
Definition suspicious_text (w : world) (self : defender) (filepath : string)
    (indicators : list (string * bool)) : string :=
  ("Suspicious activity detected on " ++ os_path_basename w filepath
   ++ ". Indicators: " ++ repr_list (true_keys indicators)
   ++ ". Score: " ++ str_of_Z (suspicion_score self)
   ++ "/" ++ str_of_Z (alert_threshold self))%string.

(** [on_modified]: the object as the call leaves it, also when the call ends
    in an exception, and the call's trace and outcome. *)
Definition on_modified (w : world) (self : defender) (event : fs_event)
    : defender * M unit :=
  if is_directory event || negb (startswith (src_path event) (watch_path self))
  then (self, ret tt)
  else
    let filepath := src_path event in
    let self := set_file_operations self (file_operations self ++ [now_append w]) in
    let self := set_file_operations self
                  (prune (now_prune w) 0 (file_operations self)) in
    match _check_suspicious_activity w self filepath with
    | (t, Raise e) => (self, (t, Raise e))
    | (t, Ok indicators) =>
        if any (values indicators) then
          let score_increase := score_increase_of indicators in
          let self := set_suspicion_score self
                        (Z.min (suspicion_score self + score_increase) 20) in
          let t := t ++ [Log WARNING (suspicious_text w self filepath indicators)] in
          let current_time := now_alert w in
          if firing_condition self current_time then
            match _take_defensive_actions w self with
            | (t', Raise e) => (self, (t ++ t', Raise e))
            | (t', Ok _) =>
                let self := set_last_alert self current_time in
                let self := set_suspicion_score self (alert_threshold self / 2) in
                (self, (t ++ t', Ok tt))
            end
          else (self, (t, Ok tt))
        else (self, (t, Ok tt))
    end.

(** The handler over a sequence of events, each with what was observed while
    it was treated.  An exception leaves the object as it was when raised. *)
Fixpoint run (self : defender) (evs : list (world * fs_event)) : defender :=
  match evs with
  | [] => self
  | (w, event) :: rest => run (fst (on_modified w self event)) rest
  end.

Definition is_critical (ef : effect) : bool :=
  match ef with
  | Log CRITICAL _ => true
  | _ => false
  end.

(** The response sequence was entered: [_take_defensive_actions] logs at
    level CRITICAL on entry, and nothing else logs at that level. *)
Definition response_invoked (m : M unit) : bool := existsb is_critical (trace_of m).

Definition returned {A} (m : M A) : bool :=
  match value_of m with
  | Ok _ => true
  | Raise _ => false
  end.

(** The response sequence ran to its end, so lines 204 and 205 ran too. *)
Definition fired (m : M unit) : bool := response_invoked m && returned m.

(** The values of [current_time] of the events of a run that fired. *)
Fixpoint firing_times (self : defender) (evs : list (world * fs_event)) : list Z :=
  match evs with
  | [] => []
  | (w, event) :: rest =>
      let (self', m) := on_modified w self event in
      (if fired m then [now_alert w] else []) ++ firing_times self' rest
  end.

(** ** The information measure the specification words

    bits = - sum of p * log2 p over the byte values that occur, evaluated
    exactly (as a fraction in lowest terms) on the windows in which every
    frequency is a power of two; on the others the value is irrational and
    [None] is returned. *)

(** [Some k] when [c / n = 2 ^ (- k)]. *)
Definition neg_log2_ratio (c n : nat) : option nat :=
  let k := Nat.log2 (n / c) in
  if (c * 2 ^ k =? n)%nat then Some k else None.

Fixpoint shannon_loop (data : list byte) (xs : list N) (bits : Q) : option Q :=
  match xs with
  | [] => Some bits
  | x :: xs' =>
      let c := bytes_count data x in
      if (c =? 0)%nat then shannon_loop data xs' bits
      else
        match neg_log2_ratio c (List.length data) with
        | Some k =>
            let p := (Z.of_nat c # Pos.of_nat (List.length data))%Q in
            shannon_loop data xs' (Qred (bits + p * inject_Z (Z.of_nat k)))
        | None => None
        end
  end.

Definition shannon_bits (data : list byte) : option Q :=
  shannon_loop data (range 256) 0%Q.

(** ** Concrete surroundings for the examples *)

Definition disk (files : list (string * list byte)) (path : string)
    : exc (list byte) :=
  match find (fun kv => String.eqb (fst kv) path) files with
  | Some kv => Ok (snd kv)
  | None => Raise (Exn FileNotFoundError "[Errno 2] No such file or directory")
  end.

Definition posix_join (a b : string) : string := (a ++ "/" ++ b)%string.

Fixpoint posix_basename (p : string) : string :=
  match p with
  | EmptyString => EmptyString
  | String _ rest => if contains "/" p then posix_basename rest else p
  end.

(** A machine on which the clock reads [t] throughout, the files are
    [files], no process runs and every OS call succeeds. *)
Definition calm (t : Z) (files : list (string * list byte)) : world :=
  {| now_append := t; now_prune := fun _ => t; now_eval := t; now_alert := t;
     file_read := disk files;
     psutil_sample := Ok [];
     os_path_basename := posix_basename;
     os_path_join := posix_join;
     process_iter := [];
     kill := fun _ => Ok tt;
     makedirs := fun _ => Ok tt;
     listdir := fun _ => Ok [];
     isfile := fun _ => false;
     move := fun _ => Ok tt;
     os_system := fun _ => Ok 0;
     compose_message := fun _ => Ok tt;
     smtp_send := fun _ => Ok tt |}.

Definition all_bytes : list byte :=
  map (fun n => match Byte.of_nat n with Some b => b | None => x00 end) (seq 0 256).

(** 8192 bytes in which each of the 256 values occurs 32 times. *)
Definition uniform_window : list byte := List.concat (repeat all_bytes 32).

(** ** Vocabulary of the statements *)

(** The guard of line 175. *)
Definition ignored (self : defender) (event : fs_event) : bool :=
  is_directory event || negb (startswith (src_path event) (watch_path self)).

(** The object after lines 179 to 183: the timestamp appended, the list
    pruned. *)
Definition recorded (w : world) (self : defender) : defender :=
  set_file_operations self
    (prune (now_prune w) 0 (file_operations self ++ [now_append w])).

(** The object after line 189, the score raised and clamped. *)
Definition raised (w : world) (self : defender)
    (indicators : list (string * bool)) : defender :=
  set_suspicion_score (recorded w self)
    (Z.min (suspicion_score self + score_increase_of indicators) 20).

(** The object after lines 204 and 205. *)
Definition decayed (w : world) (self : defender)
    (indicators : list (string * bool)) : defender :=
  set_suspicion_score (set_last_alert (raised w self indicators) (now_alert w))
    (alert_threshold self / 2).

(** The six ways a call of [on_modified] can go, each with the object,
    trace and outcome it leaves. *)
Inductive handled (w : world) (self : defender) (event : fs_event)
    : defender * M unit -> Prop :=
  | handled_ignored :
      ignored self event = true ->
      handled w self event (self, ([], Ok tt))
  | handled_check_raised t e :
      ignored self event = false ->
      _check_suspicious_activity w (recorded w self) (src_path event) = (t, Raise e) ->
      handled w self event (recorded w self, (t, Raise e))
  | handled_clean t indicators :
      ignored self event = false ->
      _check_suspicious_activity w (recorded w self) (src_path event)
      = (t, Ok indicators) ->
      any (values indicators) = false ->
      handled w self event (recorded w self, (t, Ok tt))
  | handled_scored t indicators :
      ignored self event = false ->
      _check_suspicious_activity w (recorded w self) (src_path event)
      = (t, Ok indicators) ->
      any (values indicators) = true ->
      firing_condition (raised w self indicators) (now_alert w) = false ->
      handled w self event
        (raised w self indicators,
         (t ++ [Log WARNING (suspicious_text w (raised w self indicators)
                               (src_path event) indicators)],
          Ok tt))
  | handled_aborted t indicators t' e :
      ignored self event = false ->
      _check_suspicious_activity w (recorded w self) (src_path event)
      = (t, Ok indicators) ->
      any (values indicators) = true ->
      firing_condition (raised w self indicators) (now_alert w) = true ->
      _take_defensive_actions w (raised w self indicators) = (t', Raise e) ->
      handled w self event
        (raised w self indicators,
         ((t ++ [Log WARNING (suspicious_text w (raised w self indicators)
                                (src_path event) indicators)]) ++ t',
          Raise e))
  | handled_fired t indicators t' report :
      ignored self event = false ->
      _check_suspicious_activity w (recorded w self) (src_path event)
      = (t, Ok indicators) ->
      any (values indicators) = true ->
      firing_condition (raised w self indicators) (now_alert w) = true ->
      _take_defensive_actions w (raised w self indicators) = (t', Ok report) ->
      handled w self event
        (decayed w self indicators,
         ((t ++ [Log WARNING (suspicious_text w (raised w self indicators)
                                (src_path event) indicators)]) ++ t',
          Ok tt)).

(** [indicators[key]] *)
Definition indicator (key : string) (indicators : list (string * bool)) : option bool :=
  option_map snd (find (fun kv => String.eqb (fst kv) key) indicators).

Definition count_true (vs : list bool) : Z :=
  Z.of_nat (List.length (filter (fun v : bool => v) vs)).

(** Each element is more than [gap] past the one before it. *)
Fixpoint spaced (gap : Z) (ts : list Z) : Prop :=
  match ts with
  | a :: rest =>
      match rest with
      | b :: _ => gap < b - a
      | [] => True
      end /\ spaced gap rest
  | [] => True
  end.

Definition opt_list (o : option Z) : list Z :=
  match o with
  | Some x => [x]
  | None => []
  end.

(** A trace with no record at level CRITICAL. *)
Definition quiet (t : list effect) : Prop := existsb is_critical t = false.

(** What the specification calls a path inside the watched root: the root
    itself, or the root continued past a path separator. *)
Definition backslash : string := String (ascii_of_nat 92) EmptyString.

Definition with_separator (root sep : string) : string :=
  if endswith root sep then root else (root ++ sep)%string.

Definition lies_under (root path : string) : bool :=
  String.eqb path root
  || startswith path (with_separator root "/")
  || startswith path (with_separator root backslash).

(** ** Scenarios *)

(** A defender watching /w with the default threshold 10 and cooldown of
    5 minutes, no administrator address and no model. *)
Definition fresh : defender := __init__ "/w" 10 5 None None.

Definition locked_file : fs_event :=
  {| is_directory := false; src_path := "/w/notes.locked" |}.

Definition sibling_file : fs_event :=
  {| is_directory := false; src_path := "/w2/f.txt" |}.

(** The event [locked_file] arriving on a calm machine at time [t]. *)
Definition at_time (t : Z) : world * fs_event := (calm t [], locked_file).

Definition after_four : defender :=
  run fresh [at_time 0; at_time 0; at_time 0; at_time 0].

(** Five events at time 0, the fifth of which fires, then three more one,
    two and three seconds later. *)
Definition burst_then_three : list (world * fs_event) :=
  [at_time 0; at_time 0; at_time 0; at_time 0; at_time 0;
   at_time (1 * second); at_time (2 * second); at_time (3 * second)].

Definition in_cooldown : defender := run fresh burst_then_three.

(** The same events and one more, 301 seconds after the first firing. *)
Definition two_alerts : list (world * fs_event) :=
  burst_then_three ++ [at_time (301 * second)].

Definition with_makedirs (w : world) (f : string -> exc unit) : world :=
  {| now_append := now_append w; now_prune := now_prune w;
     now_eval := now_eval w; now_alert := now_alert w;
     file_read := file_read w; psutil_sample := psutil_sample w;
     os_path_basename := os_path_basename w; os_path_join := os_path_join w;
     process_iter := process_iter w; kill := kill w;
     makedirs := f;
     listdir := listdir w; isfile := isfile w; move := move w;
     os_system := os_system w; compose_message := compose_message w;
     smtp_send := smtp_send w |}.

Definition with_os_system (w : world) (f : string -> exc Z) : world :=
  {| now_append := now_append w; now_prune := now_prune w;
     now_eval := now_eval w; now_alert := now_alert w;
     file_read := file_read w; psutil_sample := psutil_sample w;
     os_path_basename := os_path_basename w; os_path_join := os_path_join w;
     process_iter := process_iter w; kill := kill w;
     makedirs := makedirs w;
     listdir := listdir w; isfile := isfile w; move := move w;
     os_system := f; compose_message := compose_message w;
     smtp_send := smtp_send w |}.

(** The quarantine directory cannot be created. *)
Definition quarantine_denied : world :=
  with_makedirs (calm 0 [])
    (fun _ => Raise (Exn PermissionError "[Errno 13] Permission denied")).

(** Every command run through [os.system] ends with exit status 1. *)
Definition commands_fail : world :=
  with_os_system (calm 0 []) (fun _ => Ok 1).

(** [os.system] itself raises on the netsh commands and works on the
    others. *)
Definition netsh_raises : world :=
  with_os_system (calm 0 [])
    (fun cmd => if startswith cmd "netsh"
                then Raise (Exn OSError "[Errno 12] Cannot allocate memory")
                else Ok 0).

(** The indicator set of [locked_file] on a calm machine. *)
Definition extension_only : list (string * bool) :=
  [("suspicious_extension", true); ("high_entropy", false);
   ("mass_modification", false); ("ml_anomaly", false)].

(** The defender after sixteen events at time 0. *)
Definition busy : defender := run fresh (repeat (at_time 0) 16).

(** The indicator set of [locked_file] in a burst. *)
Definition extension_and_burst : list (string * bool) :=
  [("suspicious_extension", true); ("high_entropy", false);
   ("mass_modification", true); ("ml_anomaly", false)].

(** A defender at the threshold with an administrator to notify. *)
Definition alarmed : defender :=
  {| watch_path := "/w"; alert_threshold := 10;
     cooldown_period := timedelta_minutes 5;
     admin_email := Some "admin@example.org"; model := None;
     suspicion_score := 10; last_alert := None; file_operations := [] |}.

(** ** Start-up: the model files and the baseline *)

(** What [joblib.load] can hand back, as far as the defender tells the
    objects apart: an isolation forest with its [predict], a scaler with its
    [transform], or an object of some other class. *)
Inductive pickled : Type :=
  | IsolationForest (predict : list Q -> exc Z)
  | Scaler (transform : list Q -> exc (list Q))
  | OtherObject.

Definition model_file : string := "models/ransomware_model_latest.pkl".
Definition scaler_file : string := "models/scaler_latest.pkl".

Definition not_loaded_text (e : exception) : string :=
  ("[Warning] ML model not loaded: " ++ exn_str e)%string.

(** [_load_ml_model]: the attributes [model] and [scaler], both [None]
    before the call, as the call leaves them, and the lines it prints.  The
    method does not raise: every exception is caught and [model] reset. *)
Definition _load_ml_model (joblib_load : string -> exc pickled)
    : option pickled * option pickled * list string :=
  match joblib_load model_file with
  | Raise e => (None, None, [not_loaded_text e])
  | Ok m =>
      match joblib_load scaler_file with
      | Raise e => (None, None, [not_loaded_text e])
      | Ok s =>
          match m with
          | IsolationForest _ => (Some m, Some s, [])
          | _ => (None, Some s,
                  [not_loaded_text (Exn ValueError "Invalid model type")])
          end
      end
  end.

(** [obj.transform([features])] on the attribute [scaler]. *)
Definition scaler_transform (scaler : option pickled) (features : list Q)
    : exc (list Q) :=
  match scaler with
  | Some (Scaler transform) => transform features
  | Some _ => Raise (Exn AttributeError "object has no attribute 'transform'")
  | None => Raise (Exn AttributeError "'NoneType' object has no attribute 'transform'")
  end.

(** What [if self.model:] then runs on a feature vector: the field [model]
    of [defender], from the two attributes. *)
Definition model_of (m scaler : option pickled) : option ml_model :=
  match m with
  | Some (IsolationForest predict) =>
      Some (fun features =>
              match scaler_transform scaler features with
              | Ok scaled => predict scaled
              | Raise e => Raise e
              end)
  | _ => None
  end.

(** [self.logger.error(text)]: the attribute [logger] exists once
    [_setup_logging] has run, which [__init__] calls after
    [_establish_baseline]. *)
Definition logger_error (logger_set : bool) (text : string) : M unit :=
  if logger_set then emit (Log ERROR text)
  else raise (Exn AttributeError
                "'AdvancedRansomwareDefender' object has no attribute 'logger'").

(** [_get_system_features] on one reading of [psutil], before or after the
    logger is set. *)
Definition _get_system_features_at (logger_set : bool) (reading : exc (list Q))
    : M (option (list Q)) :=
  try_except
    (features <- lift reading ;; ret (Some features))
    (fun e =>
       logger_error logger_set
         ("Failed to collect system features: " ++ exn_str e)%string ;;;
       ret None).

(** [s[i]] on a sample. *)
Definition item (i : nat) (s : list Q) : exc Q :=
  match nth_error s i with
  | Some x => Ok x
  | None => Raise (Exn IndexError "list index out of range")
  end.

(** [[s[i] for s in samples]] *)
Fixpoint column (i : nat) (samples : list (list Q)) : exc (list Q) :=
  match samples with
  | [] => Ok []
  | s :: rest =>
      match item i s with
      | Ok x => match column i rest with
                | Ok xs => Ok (x :: xs)
                | Raise e => Raise e
                end
      | Raise e => Raise e
      end
  end.

Record baseline : Type := {
  cpu_mean : Q; cpu_std : Q; mem_mean : Q; mem_std : Q
}.

Section Baseline.

(** [np.mean] and [np.std] of a list of numbers. *)
Variables np_mean np_std : list Q -> Q.

(** The loop of [_establish_baseline] over the readings still to come. *)
Fixpoint baseline_loop (logger_set : bool) (readings : list (exc (list Q)))
    (samples : list (list Q)) : M (list (list Q)) :=
  match readings with
  | [] => ret samples
  | reading :: rest =>
      features <- _get_system_features_at logger_set reading ;;
      baseline_loop logger_set rest
        (match features with
         | Some f => samples ++ [f]
         | None => samples
         end)
  end.

(** [_establish_baseline], [psutil] answering the k-th of the 30 calls
    with [readings k]. *)
Definition _establish_baseline (logger_set : bool)
    (readings : nat -> exc (list Q)) : M (option baseline) :=
  samples <- baseline_loop logger_set (map readings (seq 0 30)) [] ;;
  if (List.length samples <? 20)%nat then ret None
  else
    cpu <- lift (column 0 samples) ;;
    mem <- lift (column 1 samples) ;;
    ret (Some {| cpu_mean := np_mean cpu; cpu_std := np_std cpu;
                 mem_mean := np_mean mem; mem_std := np_std mem |}).

End Baseline.

(** ** [feature_extractor.py] *)

Module feature_extractor.

Section Features.

(** The numbers [psutil] reports; a field a process denies comes as
    [None], which is a value of [A] like another. *)
Variable A : Type.

(** [proc.info] for the three attributes asked for. *)
Record proc_row : Type := {
  row_cpu_percent : A; row_memory_percent : A; row_num_handles : A
}.

(** The [for] loop over the processes, with its [break]. *)
Fixpoint process_loop (procs : list proc_row) (features : list A) : list A :=
  match procs with
  | [] => features
  | proc :: rest =>
      let features :=
        features ++ [row_cpu_percent proc; row_memory_percent proc;
                     row_num_handles proc] in
      if (5 <=? List.length features)%nat then features
      else process_loop rest features
  end.

(** A list display whose elements may raise: the first that does ends
    the evaluation. *)
Fixpoint display (elements : list (exc A)) : exc (list A) :=
  match elements with
  | [] => Ok []
  | Ok x :: rest =>
      match display rest with
      | Ok xs => Ok (x :: xs)
      | Raise e => Raise e
      end
  | Raise e :: _ => Raise e
  end.

(** [get_system_features], given the process table and the five system
    readings in the order the list names them. *)
Definition get_system_features (procs : list proc_row)
    (cpu_percent virtual_memory_percent n_net_connections
       n_disk_io_fields bytes_sent : exc A) : exc (list A) :=
  let features := process_loop procs [] in
  match display [cpu_percent; virtual_memory_percent; n_net_connections;
                 n_disk_io_fields; bytes_sent] with
  | Ok system => Ok (firstn 10 (features ++ system))
  | Raise e => Raise e
  end.

Definition row_values (proc : proc_row) : list A :=
  [row_cpu_percent proc; row_memory_percent proc; row_num_handles proc].

End Features.

End feature_extractor.

(** ** [ransomware_simulator.py] *)

Module ransomware_simulator.

(** The name [encrypt_files] and [run_simulation] rename a file to. *)
Definition encrypted_path (filepath : string) : string :=
  (filepath ++ ".encrypted")%string.

End ransomware_simulator.

(** ** More vocabulary *)

(** The events of a sequence the guard of line 175 lets through. *)
Definition handled_events (self : defender) (evs : list (world * fs_event))
    : list (world * fs_event) :=
  filter (fun we => negb (ignored self (snd we))) evs.

(** The selection of [_terminate_suspicious_processes] on a row whose
    fields are all there, as one boolean, for a lowering. *)
Definition selected (str_lower : string -> string) (self : defender)
    (cpu mem : Q) (name exe : string) : bool :=
  (Qgtb cpu 70 || Qgtb mem 30)
  && negb (contains "system" (str_lower name))
  && negb (String.eqb exe EmptyString)
  && contains (str_lower (watch_path self)) (str_lower exe).

Definition succeeded {A} (r : exc A) : bool :=
  match r with
  | Ok _ => true
  | Raise _ => false
  end.

(** The files [_quarantine_suspicious_files] is to count: regular, flagged,
    and moved without error. *)
Definition quarantined_items (w : world) (self : defender) (items : list string)
    : list string :=
  filter (fun item =>
            let item_path := os_path_join w (watch_path self) item in
            isfile w item_path
            && match file_read w item_path with
               | Ok [] => true
               | _ => false
               end
            && succeeded (move w item_path))
         items.

(** The last element of a list of times, if there is one. *)
Definition latest (ts : list Z) : option Z := last (map Some ts) None.

(** ** More scenarios *)

Definition with_psutil_sample (w : world) (r : exc (list Q)) : world :=
  {| now_append := now_append w; now_prune := now_prune w;
     now_eval := now_eval w; now_alert := now_alert w;
     file_read := file_read w; psutil_sample := r;
     os_path_basename := os_path_basename w; os_path_join := os_path_join w;
     process_iter := process_iter w; kill := kill w;
     makedirs := makedirs w;
     listdir := listdir w; isfile := isfile w; move := move w;
     os_system := os_system w; compose_message := compose_message w;
     smtp_send := smtp_send w |}.

Definition with_model (self : defender) (mdl : option ml_model) : defender :=
  {| watch_path := watch_path self; alert_threshold := alert_threshold self;
     cooldown_period := cooldown_period self; admin_email := admin_email self;
     model := mdl; suspicion_score := suspicion_score self;
     last_alert := last_alert self; file_operations := file_operations self |}.

(** A machine that answers the six readings. *)
Definition sampled : world :=
  with_psutil_sample (calm 0 []) (Ok [12; 40; 180; 55; 1000; 2000]%Q).

(** A model whose [predict] fails on every vector. *)
Definition broken_model : ml_model :=
  fun _ => Raise (Exn ValueError "X has 6 features, but IsolationForest is expecting 10").

(** The selection on a row of the process table, as one boolean: false
    when a field the condition reads is missing. *)
Definition row_selected (str_lower : string -> string) (self : defender)
    (info : proc_info) : bool :=
  match cpu_percent info, memory_percent info, name info with
  | Some cpu, Some mem, Some nm =>
      selected str_lower self cpu mem nm
        (match exe info with Some path => path | None => EmptyString end)
  | _, _, _ => false
  end.

(** The rows [_terminate_suspicious_processes] counts: selected, and killed
    without error. *)
Definition terminated_rows (str_lower : string -> string) (w : world)
    (self : defender) (procs : list proc_info) : list proc_info :=
  filter (fun info => row_selected str_lower self info
                      && succeeded (kill w (pid info))) procs.

(** A row the scan gets through: the three fields it compares are there,
    and killing the process works or fails as for a process that is gone or
    protected. *)
Definition scannable (w : world) (info : proc_info) : Prop :=
  cpu_percent info <> None /\ memory_percent info <> None /\ name info <> None
  /\ match kill w (pid info) with
     | Ok _ => True
     | Raise e => process_gone (exn_class_of e) = true
     end.

Definition with_processes (w : world) (procs : list proc_info)
    (k : Z -> exc unit) : world :=
  {| now_append := now_append w; now_prune := now_prune w;
     now_eval := now_eval w; now_alert := now_alert w;
     file_read := file_read w; psutil_sample := psutil_sample w;
     os_path_basename := os_path_basename w; os_path_join := os_path_join w;
     process_iter := procs; kill := k;
     makedirs := makedirs w;
     listdir := listdir w; isfile := isfile w; move := move w;
     os_system := os_system w; compose_message := compose_message w;
     smtp_send := smtp_send w |}.

(** A busy program started from the watched directory, a system service,
    and a process that hides its CPU usage. *)
Definition proc_miner : proc_info :=
  {| pid := 4242; name := Some "locker.exe"; exe := Some "/w/locker.exe";
     cpu_percent := Some 93%Q; memory_percent := Some 4%Q |}.

Definition proc_service : proc_info :=
  {| pid := 4; name := Some "System"; exe := None;
     cpu_percent := Some 1%Q; memory_percent := Some 1%Q |}.

Definition proc_hidden : proc_info :=
  {| pid := 77; name := Some "svc"; exe := None;
     cpu_percent := None; memory_percent := None |}.

(** The process 4242 is gone by the time it is to be killed. *)
Definition gone_4242 (p : Z) : exc unit :=
  if p =? 4242 then Raise (Exn NoSuchProcess "process no longer exists (pid=4242)")
  else Ok tt.

Definition with_directory (w : world) (items : list string)
    (regular : string -> bool) (mv : string -> exc unit) : world :=
  {| now_append := now_append w; now_prune := now_prune w;
     now_eval := now_eval w; now_alert := now_alert w;
     file_read := file_read w; psutil_sample := psutil_sample w;
     os_path_basename := os_path_basename w; os_path_join := os_path_join w;
     process_iter := process_iter w; kill := kill w;
     makedirs := makedirs w;
     listdir := fun _ => Ok items; isfile := regular; move := mv;
     os_system := os_system w; compose_message := compose_message w;
     smtp_send := smtp_send w |}.

(** The watched directory holds an empty file, a document and the
    quarantine directory; every move works. *)
Definition office : world :=
  with_directory
    (calm 0 [("/w/empty.txt", []); ("/w/report.docx", ["P"; "K"; x03; x04]%byte)])
    ["empty.txt"; "report.docx"; "QUARANTINE"]
    (fun path => negb (String.eqb path "/w/QUARANTINE"))
    (fun _ => Ok tt).

(** ** Scenarios with a clock that does not stand still *)

(** The four readings of the clock, on a machine otherwise as [w]. *)
Definition with_clock (w : world) (t_append : Z) (t_prune : nat -> Z)
    (t_eval t_alert : Z) : world :=
  {| now_append := t_append; now_prune := t_prune;
     now_eval := t_eval; now_alert := t_alert;
     file_read := file_read w; psutil_sample := psutil_sample w;
     os_path_basename := os_path_basename w; os_path_join := os_path_join w;
     process_iter := process_iter w; kill := kill w;
     makedirs := makedirs w;
     listdir := listdir w; isfile := isfile w; move := move w;
     os_system := os_system w; compose_message := compose_message w;
     smtp_send := smtp_send w |}.

(** A document of the watched directory, and the disk that holds it. *)
Definition report_file : fs_event :=
  {| is_directory := false; src_path := "/w/report.txt" |}.

Definition desk : list (string * list byte) :=
  [("/w/report.txt", ["%"; "P"; "D"; "F"; "-"; "1"; "."; "4"]%byte)].

(** The defender after fifteen changes of the document at time [t]: no
    indicator was true, the score is 0 and the window holds fifteen
    entries. *)
Definition fifteen_saves (t : Z) : defender :=
  run fresh (repeat (calm t desk, report_file) 15).

(** A sixteenth change at 2 s.  The timestamp is appended and the window
    pruned at 2 s; the machine is then suspended, and the burst detector
    reads the clock a day and three seconds after the first change. *)
Definition resumed_next_day : world :=
  with_clock (calm 0 desk) (2 * second) (fun _ => 2 * second)
    (day + 3 * second) (day + 3 * second).

(** A sixteenth change at 6 s, the first fifteen having come at 5 s.  The
    clock is set back by four seconds between the pruning and the burst
    detector, which reads 2 s. *)
Definition clock_set_back : world :=
  with_clock (calm 0 desk) (6 * second) (fun _ => 6 * second)
    (2 * second) (2 * second).

(** The handler is held up for a minute between line 179 and line 183: the
    timestamp is appended at 0 s and the clock reads 60 s in the pruning
    and after. *)
Definition held_up : world :=
  with_clock (calm 0 []) 0 (fun _ => 60 * second) (60 * second) (60 * second).

(** An administrator address that ran over two lines in the configuration
    file, and a machine on which the message headers refuse such a value,
    as [EmailMessage] does. *)
Definition newline : string := String (ascii_of_nat 10) EmptyString.

Definition two_line_address : string :=
  ("admin@example.org" ++ newline ++ "backup@example.org")%string.

Definition with_compose_message (w : world) (f : string -> exc unit) : world :=
  {| now_append := now_append w; now_prune := now_prune w;
     now_eval := now_eval w; now_alert := now_alert w;
     file_read := file_read w; psutil_sample := psutil_sample w;
     os_path_basename := os_path_basename w; os_path_join := os_path_join w;
     process_iter := process_iter w; kill := kill w;
     makedirs := makedirs w;
     listdir := listdir w; isfile := isfile w; move := move w;
     os_system := os_system w; compose_message := f;
     smtp_send := smtp_send w |}.

Definition strict_headers : world :=
  with_compose_message (calm 0 [])
    (fun rcpt =>
       if contains newline rcpt
       then Raise (Exn ValueError
                     "Header values may not contain linefeed or carriage return characters")
       else Ok tt).

(** * Properties *)

(** ** Computations *)

Lemma bind_lift_Ok {A B} (a : A) (k : A -> M B) : bind (lift (Ok a)) k = k a.
Proof. unfold bind, lift. destruct (k a); reflexivity. Qed.

Lemma bind_lift_Raise {A B} (e : exception) (k : A -> M B) :
  bind (lift (Raise e)) k = ([], Raise e).
Proof. reflexivity. Qed.

Lemma bind_ret {A B} (a : A) (k : A -> M B) : bind (ret a) k = k a.
Proof. unfold bind, ret. destruct (k a); reflexivity. Qed.

(** ** Content heuristics *)

Lemma Qgtb_ratio_pos (c : nat) (n : positive) :
  Qgtb (Z.of_nat c # n) 0 = negb (c =? 0)%nat.
Proof.
  unfold Qgtb, Qle_bool; simpl.
  destruct c as [|c]; reflexivity.
Qed.

Lemma entropy_loop_raises (data : list byte) (xs : list N) (acc : Q) :
  (exists x, In x xs /\ bytes_count data x <> 0%nat) ->
  exists e, entropy_loop data xs acc = Raise e /\ exn_class_of e = AttributeError.
Proof.
  revert acc. induction xs as [|x xs IH]; intros acc [y [Hin Hy]].
  - destruct Hin.
  - simpl. rewrite Qgtb_ratio_pos.
    destruct (Nat.eqb_spec (bytes_count data x) 0) as [Hz|Hnz]; simpl.
    + apply IH. exists y. split; [|exact Hy].
      destruct Hin as [->|Hin]; [contradiction|exact Hin].
    + eexists. split; reflexivity.
Qed.

Lemma bytes_count_head (b : byte) (rest : list byte) :
  bytes_count (b :: rest) (Byte.to_N b) <> 0%nat.
Proof.
  unfold bytes_count. simpl. rewrite N.eqb_refl. simpl. discriminate.
Qed.

(** On every window that is not empty the entropy estimate raises
    [AttributeError]: some byte value occurs, and for the first such value
    the attribute [bit_length] is looked up on a float. *)
Lemma calculate_entropy_nonempty (data : list byte) :
  data <> [] ->
  exists e, _calculate_entropy data = Raise e /\ exn_class_of e = AttributeError.
Proof.
  destruct data as [|b rest]; [congruence|intros _].
  unfold _calculate_entropy. apply entropy_loop_raises.
  exists (Byte.to_N b). split; [|apply bytes_count_head].
  apply in_map_iff. exists (N.to_nat (Byte.to_N b)).
  split; [apply N2Nat.id|].
  apply in_seq. pose proof (Byte.to_N_bounded b). lia.
Qed.

Lemma calculate_entropy_empty : _calculate_entropy [] = Ok 0%Q.
Proof. reflexivity. Qed.

Lemma firstn_window_nil (content : list byte) :
  firstn window_size content = [] <-> content = [].
Proof.
  split; [|intros ->; apply firstn_nil].
  destruct content as [|b rest]; [reflexivity|].
  unfold window_size. destruct (Z.to_nat 8192) eqn:E; [lia|discriminate].
Qed.

(** A readable file that is not empty is never classified as encrypted,
    whatever its bytes: the exception of the entropy estimate is caught and
    logged as a failed analysis. *)
Lemma detect_encryption_nonempty (w : world) (filepath : string)
    (content : list byte) :
  file_read w filepath = Ok content -> content <> [] ->
  exists e,
    _detect_encryption w filepath
    = ([Log WARNING ("Could not analyze " ++ filepath ++ ": " ++ exn_str e)%string],
       Ok false)
    /\ exn_class_of e = AttributeError.
Proof.
  intros Hread Hne.
  assert (Hw : firstn window_size content <> []) by (rewrite firstn_window_nil; exact Hne).
  destruct (calculate_entropy_nonempty _ Hw) as [e [He Hc]].
  exists e. split; [|exact Hc].
  unfold _detect_encryption, read_window. rewrite Hread.
  rewrite bind_lift_Ok, He, bind_lift_Raise. reflexivity.
Qed.

(** In particular a file that starts with the PNG header is not classified
    as encrypted, whatever follows the header. *)
Lemma detect_encryption_png (w : world) (filepath : string) (rest : list byte) :
  file_read w filepath = Ok (PNG_magic ++ rest) ->
  value_of (_detect_encryption w filepath) = Ok false.
Proof.
  intros Hread.
  destruct (detect_encryption_nonempty w filepath _ Hread) as [e [-> _]];
    [discriminate|reflexivity].
Qed.

(** C1 (the code departs from the claim).  The window made of the 256 byte
    values, each 32 times, has 8192 bytes and carries 8 bits per byte, above
    the threshold 7.0; the classification of a file holding it returns
    false, after logging that the file could not be analysed. *)
Theorem detect_encryption_uniform_window :
  Z.of_nat (List.length uniform_window) = 8192
  /\ shannon_bits uniform_window = Some 8%Q
  /\ Qgtb 8 7 = true
  /\ _detect_encryption (calm 0 [("/w/a.bin", uniform_window)]) "/w/a.bin"
     = ([Log WARNING
           "Could not analyze /w/a.bin: 'float' object has no attribute 'bit_length'"],
        Ok false).
Proof.
  split; [vm_compute; reflexivity|].
  split; [vm_compute; reflexivity|].
  split; vm_compute; reflexivity.
Qed.

(** C2, counterexample: a file that opens and yields no byte is classified
    as encrypted.  The estimate of the empty window is 0, and the empty
    window starts with none of the three known headers. *)
Lemma detect_encryption_empty_file :
  read_window (calm 0 [("/w/empty.txt", [])]) "/w/empty.txt" window_size = Ok []
  /\ _detect_encryption (calm 0 [("/w/empty.txt", [])]) "/w/empty.txt" = ([], Ok true)
  /\ value_of (_detect_encryption (calm 0 [("/w/empty.txt", [])]) "/w/empty.txt")
     <> Ok false.
Proof.
  split; [reflexivity|]. split; [reflexivity|]. discriminate.
Qed.

(** C2, amended: when opening or reading the file raises, the
    classification returns false and the failure is logged as a warning, not
    raised; when the file opens and its leading window is empty, the
    classification returns true and nothing is logged. *)
Theorem detect_encryption_unreadable_or_empty (w : world) (filepath : string) :
  (forall e, file_read w filepath = Raise e ->
     _detect_encryption w filepath
     = ([Log WARNING ("Could not analyze " ++ filepath ++ ": " ++ exn_str e)%string],
        Ok false))
  /\ (forall content, file_read w filepath = Ok content ->
        firstn window_size content = [] ->
        _detect_encryption w filepath = ([], Ok true)).
Proof.
  split.
  - intros e He. unfold _detect_encryption, read_window. rewrite He.
    rewrite bind_lift_Raise. reflexivity.
  - intros content Hc Hnil. unfold _detect_encryption, read_window. rewrite Hc, Hnil.
    reflexivity.
Qed.

(** A missing file, and a file that exists and is empty. *)
Lemma detect_encryption_unreadable_or_empty_witness :
  _detect_encryption (calm 0 []) "/w/gone.txt"
  = ([Log WARNING
        "Could not analyze /w/gone.txt: [Errno 2] No such file or directory"],
     Ok false)
  /\ _detect_encryption (calm 0 [("/w/empty.txt", [])]) "/w/empty.txt" = ([], Ok true).
Proof.
  split.
  - exact (proj1 (detect_encryption_unreadable_or_empty (calm 0 []) "/w/gone.txt")
             (Exn FileNotFoundError "[Errno 2] No such file or directory")
             eq_refl).
  - exact (proj2 (detect_encryption_unreadable_or_empty
                    (calm 0 [("/w/empty.txt", [])]) "/w/empty.txt")
             [] eq_refl eq_refl).
Defined.

(** ** The handler, case by case *)

Lemma on_modified_handled (w : world) (self : defender) (event : fs_event) :
  handled w self event (on_modified w self event).
Proof.
  unfold on_modified. fold (ignored self event).
  destruct (ignored self event) eqn:Hig; [apply handled_ignored; exact Hig|].
  cbv zeta.
  change (set_file_operations
            (set_file_operations self (file_operations self ++ [now_append w]))
            (prune (now_prune w) 0
               (file_operations
                  (set_file_operations self (file_operations self ++ [now_append w])))))
    with (recorded w self).
  destruct (_check_suspicious_activity w (recorded w self) (src_path event))
    as [t [indicators|e]] eqn:Hcheck.
  - destruct (any (values indicators)) eqn:Hany.
    + change (set_suspicion_score (recorded w self)
                (Z.min (suspicion_score (recorded w self) + score_increase_of indicators) 20))
        with (raised w self indicators).
      destruct (firing_condition (raised w self indicators) (now_alert w)) eqn:Hfire.
      * destruct (_take_defensive_actions w (raised w self indicators))
          as [t' [report|e]] eqn:Htake.
        -- exact (handled_fired w self event t indicators t' report
                    Hig Hcheck Hany Hfire Htake).
        -- exact (handled_aborted w self event t indicators t' e
                    Hig Hcheck Hany Hfire Htake).
      * eapply handled_scored; eassumption.
    + eapply handled_clean; eassumption.
  - eapply handled_check_raised; eassumption.
Qed.

(** ** Traces *)

Lemma trace_bind {A B} (m : M A) (k : A -> M B) :
  trace_of (bind m k)
  = trace_of m ++ match value_of m with
                  | Ok a => trace_of (k a)
                  | Raise _ => []
                  end.
Proof.
  destruct m as [t [a|e]]; simpl.
  - destruct (k a); reflexivity.
  - rewrite app_nil_r. reflexivity.
Qed.

Lemma trace_try_except {A} (m : M A) (h : exception -> M A) :
  trace_of (try_except m h)
  = trace_of m ++ match value_of m with
                  | Ok _ => []
                  | Raise e => trace_of (h e)
                  end.
Proof.
  destruct m as [t [a|e]]; simpl.
  - rewrite app_nil_r. reflexivity.
  - destruct (h e); reflexivity.
Qed.

Lemma quiet_nil : quiet [].
Proof. reflexivity. Qed.

Lemma quiet_app (t1 t2 : list effect) : quiet t1 -> quiet t2 -> quiet (t1 ++ t2).
Proof. unfold quiet. intros H1 H2. rewrite existsb_app, H1, H2. reflexivity. Qed.

Lemma quiet_bind {A B} (m : M A) (k : A -> M B) :
  quiet (trace_of m) -> (forall a, quiet (trace_of (k a))) ->
  quiet (trace_of (bind m k)).
Proof.
  intros Hm Hk. rewrite trace_bind. apply quiet_app; [exact Hm|].
  destruct (value_of m); [apply Hk|apply quiet_nil].
Qed.

Lemma quiet_try_except {A} (m : M A) (h : exception -> M A) :
  quiet (trace_of m) -> (forall e, quiet (trace_of (h e))) ->
  quiet (trace_of (try_except m h)).
Proof.
  intros Hm Hh. rewrite trace_try_except. apply quiet_app; [exact Hm|].
  destruct (value_of m); [apply quiet_nil|apply Hh].
Qed.

Lemma quiet_lift {A} (r : exc A) : quiet (trace_of (lift r)).
Proof. reflexivity. Qed.

Lemma quiet_ret {A} (a : A) : quiet (trace_of (ret a)).
Proof. reflexivity. Qed.

Lemma quiet_warning (text : string) : quiet (trace_of (emit (Log WARNING text))).
Proof. reflexivity. Qed.

Lemma quiet_error (text : string) : quiet (trace_of (emit (Log ERROR text))).
Proof. reflexivity. Qed.

Create HintDb quiet.
#[local] Hint Resolve quiet_nil quiet_lift quiet_ret quiet_warning quiet_error : quiet.

Ltac quiet_step :=
  first [ apply quiet_bind | apply quiet_try_except | intro
        | match goal with
          | |- quiet (trace_of (if ?b then _ else _)) => destruct b
          | |- quiet (trace_of (match ?x with _ => _ end)) => destruct x
          end ].

Lemma detect_encryption_quiet (w : world) (filepath : string) :
  quiet (trace_of (_detect_encryption w filepath)).
Proof. unfold _detect_encryption. repeat quiet_step; auto with quiet. Qed.

Lemma get_system_features_quiet (w : world) :
  quiet (trace_of (_get_system_features w)).
Proof. unfold _get_system_features. repeat quiet_step; auto with quiet. Qed.

Lemma check_suspicious_activity_quiet (w : world) (self : defender) (filepath : string) :
  quiet (trace_of (_check_suspicious_activity w self filepath)).
Proof.
  unfold _check_suspicious_activity, ml_anomaly.
  apply quiet_bind; [apply detect_encryption_quiet|intro].
  apply quiet_bind; [apply quiet_lift|intro].
  apply quiet_bind; [|intro; apply quiet_ret].
  destruct (model self); [|apply quiet_ret].
  apply quiet_bind; [apply get_system_features_quiet|intro].
  repeat quiet_step; auto with quiet.
Qed.

Lemma take_defensive_actions_loud (w : world) (self : defender) :
  existsb is_critical (trace_of (_take_defensive_actions w self)) = true.
Proof. unfold _take_defensive_actions. rewrite trace_bind. reflexivity. Qed.

(** ** When the response sequence is entered, and when it completes *)

Lemma check_trace_quiet (w : world) (self : defender) (filepath : string)
    (t : list effect) (r : exc (list (string * bool))) :
  _check_suspicious_activity w self filepath = (t, r) -> quiet t.
Proof.
  intros H. pose proof (check_suspicious_activity_quiet w self filepath) as Hq.
  rewrite H in Hq. exact Hq.
Qed.

Lemma take_trace_loud (w : world) (self : defender) (t : list effect)
    (r : exc (list string)) :
  _take_defensive_actions w self = (t, r) -> existsb is_critical t = true.
Proof.
  intros H. pose proof (take_defensive_actions_loud w self) as Hl.
  rewrite H in Hl. exact Hl.
Qed.

Lemma quiet_with_warning (t : list effect) (text : string) :
  quiet t -> quiet (t ++ [Log WARNING text]).
Proof. intros H. apply quiet_app; [exact H|reflexivity]. Qed.

(** The response sequence is entered exactly in the last two cases. *)
Lemma handled_invoked (w : world) (self : defender) (event : fs_event)
    (r : defender * M unit) :
  handled w self event r ->
  response_invoked (snd r) = true <->
  ignored self event = false /\
  exists t indicators,
    _check_suspicious_activity w (recorded w self) (src_path event) = (t, Ok indicators)
    /\ any (values indicators) = true
    /\ firing_condition (raised w self indicators) (now_alert w) = true.
Proof.
  intros H. unfold response_invoked, trace_of.
  destruct H as [Hig | t e Hig Hc | t ind Hig Hc Hany | t ind Hig Hc Hany Hf
                 | t ind t' e Hig Hc Hany Hf Ht | t ind t' rep Hig Hc Hany Hf Ht];
    simpl.
  - split; [discriminate|]. intros [Hig' _]. congruence.
  - rewrite (check_trace_quiet _ _ _ _ _ Hc).
    split; [discriminate|]. intros [_ [t0 [ind0 [Hc0 _]]]]. congruence.
  - rewrite (check_trace_quiet _ _ _ _ _ Hc).
    split; [discriminate|]. intros [_ [t0 [ind0 [Hc0 [Hany0 _]]]]].
    rewrite Hc in Hc0. injection Hc0 as _ <-. congruence.
  - rewrite (quiet_with_warning _ _ (check_trace_quiet _ _ _ _ _ Hc)).
    split; [discriminate|]. intros [_ [t0 [ind0 [Hc0 [_ Hf0]]]]].
    rewrite Hc in Hc0. injection Hc0 as _ <-. congruence.
  - rewrite existsb_app, (take_trace_loud _ _ _ _ Ht), orb_true_r.
    split; [|reflexivity]. intros _. split; [exact Hig|]. exists t, ind. auto.
  - rewrite existsb_app, (take_trace_loud _ _ _ _ Ht), orb_true_r.
    split; [|reflexivity]. intros _. split; [exact Hig|]. exists t, ind. auto.
Qed.

(** When the response sequence ran to its end the object is [decayed]. *)
Lemma handled_fired_inv (w : world) (self : defender) (event : fs_event)
    (r : defender * M unit) :
  handled w self event r -> fired (snd r) = true ->
  exists t indicators,
    _check_suspicious_activity w (recorded w self) (src_path event) = (t, Ok indicators)
    /\ any (values indicators) = true
    /\ firing_condition (raised w self indicators) (now_alert w) = true
    /\ fst r = decayed w self indicators.
Proof.
  intros H Hfired. unfold fired in Hfired. apply andb_prop in Hfired.
  destruct Hfired as [Hinv Hret].
  apply (handled_invoked _ _ _ _ H) in Hinv.
  destruct Hinv as [Hig0 [t0 [ind0 [Hc0 [Hany0 Hf0]]]]].
  exists t0, ind0. repeat split; try assumption.
  destruct H as [Hig | t e Hig Hc | t ind Hig Hc Hany | t ind Hig Hc Hany Hf
                 | t ind t' e Hig Hc Hany Hf Ht | t ind t' rep Hig Hc Hany Hf Ht];
    simpl in *; try congruence; discriminate.
Qed.

(** In every other case the score is the one [raised] or left alone. *)
Lemma handled_not_fired (w : world) (self : defender) (event : fs_event)
    (r : defender * M unit) (t : list effect) (indicators : list (string * bool)) :
  handled w self event r -> fired (snd r) = false ->
  ignored self event = false ->
  _check_suspicious_activity w (recorded w self) (src_path event) = (t, Ok indicators) ->
  any (values indicators) = true ->
  fst r = raised w self indicators.
Proof.
  intros H Hnf Hig0 Hc0 Hany0.
  destruct H as [Hig | t1 e Hig Hc | t1 ind Hig Hc Hany | t1 ind Hig Hc Hany Hf
                 | t1 ind t' e Hig Hc Hany Hf Ht | t1 ind t' rep Hig Hc Hany Hf Ht];
    simpl in *; try congruence.
  exfalso. unfold fired, response_invoked, returned, trace_of in Hnf. simpl in Hnf.
  rewrite existsb_app, (take_trace_loud _ _ _ _ Ht), orb_true_r in Hnf.
  discriminate.
Qed.

(** The configuration is never written. *)
Lemma on_modified_config (w : world) (self : defender) (event : fs_event) :
  let self' := fst (on_modified w self event) in
  alert_threshold self' = alert_threshold self
  /\ cooldown_period self' = cooldown_period self
  /\ watch_path self' = watch_path self.
Proof.
  destruct (on_modified_handled w self event); simpl; auto.
Qed.

Lemma run_config (self : defender) (evs : list (world * fs_event)) :
  alert_threshold (run self evs) = alert_threshold self
  /\ cooldown_period (run self evs) = cooldown_period self
  /\ watch_path (run self evs) = watch_path self.
Proof.
  revert self. induction evs as [|[w event] evs IH]; intros self; simpl; [auto|].
  destruct (IH (fst (on_modified w self event))) as [H1 [H2 H3]].
  destruct (on_modified_config w self event) as [G1 [G2 G3]].
  repeat split; congruence.
Qed.

(** ** The score *)

Lemma fold_left_add_shift (zs : list Z) (a : Z) :
  fold_left Z.add zs a = a + fold_left Z.add zs 0.
Proof.
  revert a. induction zs as [|z zs IH]; intros a; simpl; [lia|].
  rewrite (IH (a + z)), (IH z). lia.
Qed.

(** Two points for each indicator that holds. *)
Lemma score_increase_count (indicators : list (string * bool)) :
  score_increase_of indicators = 2 * count_true (values indicators).
Proof.
  unfold score_increase_of, sum, count_true.
  induction (values indicators) as [|v vs IH]; [reflexivity|].
  simpl map. simpl fold_left. rewrite fold_left_add_shift, IH.
  destruct v; simpl filter; simpl List.length; lia.
Qed.

Lemma score_increase_nonneg (indicators : list (string * bool)) :
  0 <= score_increase_of indicators.
Proof. rewrite score_increase_count. unfold count_true. lia. Qed.

Lemma firing_condition_raised (w : world) (self : defender)
    (indicators : list (string * bool)) (now : Z) :
  firing_condition (raised w self indicators) now = true <->
  alert_threshold self <= Z.min (suspicion_score self + score_increase_of indicators) 20
  /\ (last_alert self = None
      \/ exists t, last_alert self = Some t /\ cooldown_period self < now - t).
Proof.
  unfold firing_condition. simpl. rewrite andb_true_iff, Z.leb_le.
  destruct (last_alert self) as [t|].
  - rewrite Z.ltb_lt. split.
    + intros [H1 H2]. split; [exact H1|]. right. exists t. auto.
    + intros [H1 [H2|[t' [H2 H3]]]]; [discriminate|].
      injection H2 as <-. auto.
  - split; intros [H1 _]; auto.
Qed.

(** The score stays at or below 20, and at or above 0 when the threshold is
    not negative. *)
Lemma on_modified_score_bounds (w : world) (self : defender) (event : fs_event) :
  suspicion_score self <= 20 ->
  suspicion_score (fst (on_modified w self event)) <= 20
  /\ (0 <= alert_threshold self -> 0 <= suspicion_score self ->
      0 <= suspicion_score (fst (on_modified w self event))).
Proof.
  intros Hle.
  destruct (on_modified_handled w self event)
    as [Hig | t e Hig Hc | t ind Hig Hc Hany | t ind Hig Hc Hany Hf
        | t ind t' e Hig Hc Hany Hf Ht | t ind t' rep Hig Hc Hany Hf Ht];
    simpl; try (split; [lia|intros; lia]);
    try (pose proof (score_increase_nonneg ind); split; [lia|intros; lia]).
  apply firing_condition_raised in Hf. destruct Hf as [Hthr _].
  split.
  - assert (alert_threshold self / 2 <= 10); [|lia].
    apply Z.div_le_upper_bound; lia.
  - intros H0 _. apply Z.div_pos; lia.
Qed.

Lemma run_score_bounds (self : defender) (evs : list (world * fs_event)) :
  suspicion_score self <= 20 ->
  suspicion_score (run self evs) <= 20
  /\ (0 <= alert_threshold self -> 0 <= suspicion_score self ->
      0 <= suspicion_score (run self evs)).
Proof.
  revert self. induction evs as [|[w event] evs IH]; intros self Hle; simpl.
  - split; [exact Hle|auto].
  - destruct (on_modified_score_bounds w self event Hle) as [H1 H2].
    destruct (IH _ H1) as [G1 G2]. split; [exact G1|].
    intros Hthr H0. apply G2; [|apply H2; assumption].
    destruct (on_modified_config w self event) as [-> _]. exact Hthr.
Qed.

(** C3, counterexample: after four events that each raise the score by 2
    the score is 8; the fifth, with one indicator true, raises it to the
    threshold 10, the response sequence runs, and the call ends with the
    score at 5, below the 8 it started from. *)
Lemma score_drops_when_firing :
  suspicion_score after_four = 8
  /\ (exists t indicators,
        _check_suspicious_activity (calm 0 []) (recorded (calm 0 []) after_four)
          (src_path locked_file) = (t, Ok indicators)
        /\ any (values indicators) = true)
  /\ ignored after_four locked_file = false
  /\ suspicion_score (fst (on_modified (calm 0 []) after_four locked_file)) = 5
  /\ ~ suspicion_score after_four
       <= suspicion_score (fst (on_modified (calm 0 []) after_four locked_file)).
Proof.
  split; [vm_compute; reflexivity|].
  split; [eexists; eexists; split; vm_compute; reflexivity|].
  split; [vm_compute; reflexivity|].
  split; [vm_compute; reflexivity|].
  vm_compute. intros H. apply H. reflexivity.
Qed.

(** C3, amended: take any defender reached from its initial state by any
    sequence of events, and an event whose indicator set has a true entry.
    The score raised by 2 per true indicator and clamped at 20 is at least
    the score before the event and at most 20 (and at least 0 when the
    threshold is not negative).  That raised score is the score after the
    event unless the response sequence ran to its end on this event; in
    that case the score after the event is threshold // 2.  Either way the
    score after the event is at most 20. *)
Theorem score_after_scored_event
    (p : string) (thr cd : Z) (mail : option string) (mdl : option ml_model)
    (evs : list (world * fs_event)) (w : world) (event : fs_event)
    (t : list effect) (indicators : list (string * bool)) :
  let self := run (__init__ p thr cd mail mdl) evs in
  ignored self event = false ->
  _check_suspicious_activity w (recorded w self) (src_path event) = (t, Ok indicators) ->
  any (values indicators) = true ->
  let clamped := Z.min (suspicion_score self + 2 * count_true (values indicators)) 20 in
  let after := on_modified w self event in
  suspicion_score self <= clamped <= 20
  /\ (0 <= thr -> 0 <= clamped)
  /\ (fired (snd after) = false -> suspicion_score (fst after) = clamped)
  /\ (fired (snd after) = true -> suspicion_score (fst after) = thr / 2)
  /\ suspicion_score (fst after) <= 20.
Proof.
  intros self Hig Hc Hany clamped after. subst after.
  assert (Hle : suspicion_score self <= 20).
  { apply run_score_bounds. simpl. lia. }
  assert (Hthr : alert_threshold self = thr).
  { unfold self. destruct (run_config (__init__ p thr cd mail mdl) evs) as [-> _].
    reflexivity. }
  assert (Hcl : suspicion_score (raised w self indicators) = clamped).
  { unfold clamped. rewrite <- score_increase_count. reflexivity. }
  pose proof (score_increase_nonneg indicators) as Hinc.
  rewrite score_increase_count in Hinc.
  split; [unfold clamped; lia|].
  split.
  { intros H0. unfold clamped.
    assert (0 <= suspicion_score self); [|lia].
    apply run_score_bounds; simpl; lia. }
  split.
  { intros Hnf.
    rewrite (handled_not_fired w self event _ t indicators
               (on_modified_handled w self event) Hnf Hig Hc Hany).
    exact Hcl. }
  split.
  { intros Hf.
    destruct (handled_fired_inv w self event _ (on_modified_handled w self event) Hf)
      as [t0 [ind0 [_ [_ [_ ->]]]]].
    simpl. rewrite Hthr. reflexivity. }
  apply on_modified_score_bounds. exact Hle.
Qed.

(** The second of two events on a file with a suspicious extension: the score
    goes from 2 to 4. *)
Lemma score_after_scored_event_witness :
  ignored (run fresh [at_time 0]) locked_file = false
  /\ any (values extension_only) = true
  /\ suspicion_score (run fresh [at_time 0])
     <= Z.min (suspicion_score (run fresh [at_time 0]) + 2 * 1) 20 <= 20
  /\ suspicion_score
       (fst (on_modified (calm 0 []) (run fresh [at_time 0]) locked_file)) <= 20.
Proof.
  assert (Hig : ignored (run fresh [at_time 0]) locked_file = false) by reflexivity.
  assert (Hany : any (values extension_only) = true) by reflexivity.
  pose proof (score_after_scored_event "/w" 10 5 None None [at_time 0]
                (calm 0 []) locked_file
                [Log WARNING
                   "Could not analyze /w/notes.locked: [Errno 2] No such file or directory"]
                extension_only Hig eq_refl Hany) as H.
  destruct H as [H1 [_ [_ [_ H5]]]].
  split; [exact Hig|]. split; [exact Hany|]. split; [exact H1|exact H5].
Defined.

(** ** Firing and the cooldown *)

(** Either the response sequence ran to its end, the alert time is the
    [current_time] of this event and the previous alert, if any, is more
    than a cooldown back; or the alert time is left as it was. *)
Lemma on_modified_last_alert (w : world) (self : defender) (event : fs_event) :
  (fired (snd (on_modified w self event)) = true
   /\ last_alert (fst (on_modified w self event)) = Some (now_alert w)
   /\ forall t, last_alert self = Some t -> cooldown_period self < now_alert w - t)
  \/ (fired (snd (on_modified w self event)) = false
      /\ last_alert (fst (on_modified w self event)) = last_alert self).
Proof.
  destruct (fired (snd (on_modified w self event))) eqn:Hf.
  - left. split; [reflexivity|].
    destruct (handled_fired_inv w self event _ (on_modified_handled w self event) Hf)
      as [t0 [ind0 [_ [_ [Hcond ->]]]]].
    split; [reflexivity|].
    intros t Ht. apply firing_condition_raised in Hcond.
    destruct Hcond as [_ [Hn|[t' [Ht' Hgap]]]]; congruence.
  - right. split; [reflexivity|].
    revert Hf.
    destruct (on_modified_handled w self event)
      as [Hig | t e Hig Hc | t ind Hig Hc Hany | t ind Hig Hc Hany Hfc
          | t ind t' e Hig Hc Hany Hfc Ht | t ind t' rep Hig Hc Hany Hfc Ht];
      simpl; try reflexivity.
    unfold fired, response_invoked, returned, trace_of. simpl.
    rewrite existsb_app, (take_trace_loud _ _ _ _ Ht), orb_true_r. discriminate.
Qed.

Lemma spaced_from_alert (self : defender) (evs : list (world * fs_event)) :
  spaced (cooldown_period self) (opt_list (last_alert self) ++ firing_times self evs).
Proof.
  revert self. induction evs as [|[w event] evs IH]; intros self.
  - simpl. rewrite app_nil_r. destruct (last_alert self); simpl; auto.
  - simpl firing_times.
    pose proof (on_modified_last_alert w self event) as Hla.
    pose proof (on_modified_config w self event) as [_ [Hcd _]].
    specialize (IH (fst (on_modified w self event))).
    destruct (on_modified w self event) as [self' m]. simpl in *.
    rewrite Hcd in IH.
    destruct Hla as [[-> [Hnew Hgap]]|[-> Hsame]].
    + rewrite Hnew in IH. simpl in IH.
      destruct (last_alert self) as [t|]; simpl; [|exact IH].
      split; [apply Hgap; reflexivity|exact IH].
    + rewrite Hsame in IH. exact IH.
Qed.

Lemma spaced_after_head (gap a : Z) (ts : list Z) :
  0 <= gap -> spaced gap (a :: ts) ->
  forall j b, nth_error ts j = Some b -> gap < b - a.
Proof.
  intros Hg. revert a. induction ts as [|c ts IH]; intros a Hs j b Hj.
  - destruct j; discriminate.
  - destruct Hs as [Hac Hrest]. destruct j as [|j]; simpl in Hj.
    + injection Hj as <-. exact Hac.
    + pose proof (IH c Hrest j b Hj). lia.
Qed.

Lemma spaced_any_two (gap : Z) (ts : list Z) :
  0 <= gap -> spaced gap ts ->
  forall i j a b, (i < j)%nat ->
    nth_error ts i = Some a -> nth_error ts j = Some b -> gap < b - a.
Proof.
  intros Hg. induction ts as [|c ts IH]; intros Hs i j a b Hij Hi Hj.
  - destruct i; discriminate.
  - destruct j as [|j]; [lia|]. simpl in Hj. destruct i as [|i]; simpl in Hi.
    + injection Hi as <-. eapply spaced_after_head; eassumption.
    + destruct Hs as [_ Hrest]. apply (IH Hrest i j); [lia|assumption|assumption].
Qed.

Lemma spaced_tail (gap : Z) (ts1 ts2 : list Z) :
  spaced gap (ts1 ++ ts2) -> spaced gap ts2.
Proof.
  induction ts1 as [|a ts1 IH]; [auto|]. simpl. intros [_ H]. apply IH. exact H.
Qed.

(** C4, counterexample: the defender fired at time 0 and its score is back
    at 11; an event arrives exactly one cooldown (300 s) later with one
    indicator true.  The raised score 13 is at least the threshold 10 and
    [now - last_alert >= cooldown] holds, yet the response sequence is not
    entered. *)
Lemma no_response_at_exact_cooldown :
  last_alert in_cooldown = Some 0
  /\ cooldown_period in_cooldown = 300 * second
  /\ alert_threshold in_cooldown = 10
  /\ snd (_check_suspicious_activity (calm (300 * second) [])
            (recorded (calm (300 * second) []) in_cooldown) (src_path locked_file))
     = Ok extension_only
  /\ suspicion_score (raised (calm (300 * second) []) in_cooldown extension_only) = 13
  /\ now_alert (calm (300 * second) []) - 0 >= cooldown_period in_cooldown
  /\ response_invoked
       (snd (on_modified (calm (300 * second) []) in_cooldown locked_file)) = false.
Proof.
  split; [vm_compute; reflexivity|].
  split; [vm_compute; reflexivity|].
  split; [vm_compute; reflexivity|].
  split; [vm_compute; reflexivity|].
  split; [vm_compute; reflexivity|].
  split; [vm_compute; discriminate|].
  vm_compute; reflexivity.
Qed.

(** C4, amended: the response sequence is entered on an event exactly when
    the event is not ignored, its indicator set has a true entry, the score
    raised by this event is at least the threshold, and the last alert is
    unset or lies strictly more than the cooldown before the current time.
    Over every sequence of events, each completed firing is more than one
    cooldown after the alert time before it, and, the cooldown being
    non-negative, any two completed firings are more than one cooldown
    apart. *)
Theorem response_gate :
  (forall w self event,
     response_invoked (snd (on_modified w self event)) = true <->
     ignored self event = false /\
     exists t indicators,
       _check_suspicious_activity w (recorded w self) (src_path event)
       = (t, Ok indicators)
       /\ any (values indicators) = true
       /\ alert_threshold self
          <= Z.min (suspicion_score self + score_increase_of indicators) 20
       /\ (last_alert self = None
           \/ exists t0, last_alert self = Some t0
                         /\ cooldown_period self < now_alert w - t0))
  /\ (forall self evs,
        spaced (cooldown_period self)
          (opt_list (last_alert self) ++ firing_times self evs))
  /\ (forall self evs i j a b,
        0 <= cooldown_period self -> (i < j)%nat ->
        nth_error (firing_times self evs) i = Some a ->
        nth_error (firing_times self evs) j = Some b ->
        cooldown_period self < b - a).
Proof.
  split; [|split].
  - intros w self event.
    rewrite (handled_invoked w self event _ (on_modified_handled w self event)).
    split; intros [Hig [t [ind [Hc [Hany Hf]]]]]; (split; [exact Hig|]);
      exists t, ind; (split; [exact Hc|]); (split; [exact Hany|]).
    + apply firing_condition_raised in Hf. exact Hf.
    + apply firing_condition_raised. exact Hf.
  - apply spaced_from_alert.
  - intros self evs i j a b Hcd Hij Hi Hj.
    apply (spaced_any_two (cooldown_period self) (firing_times self evs) Hcd) with i j;
      try assumption.
    apply (spaced_tail _ (opt_list (last_alert self))). apply spaced_from_alert.
Qed.

(** The fifth event of a burst enters the response sequence; in a longer run
    the two firings are 301 seconds apart, with a cooldown of 300. *)
Lemma response_gate_witness :
  response_invoked (snd (on_modified (calm 0 []) after_four locked_file)) = true
  /\ firing_times fresh two_alerts = [0; 301 * second]
  /\ cooldown_period fresh < 301 * second - 0.
Proof.
  destruct response_gate as [Hgate [_ Hapart]].
  split.
  - apply Hgate. split; [reflexivity|].
    exists [Log WARNING
              "Could not analyze /w/notes.locked: [Errno 2] No such file or directory"],
           extension_only.
    split; [vm_compute; reflexivity|].
    split; [reflexivity|].
    split; [vm_compute; discriminate|].
    left. vm_compute. reflexivity.
  - assert (Hft : firing_times fresh two_alerts = [0; 301 * second])
      by (vm_compute; reflexivity).
    split; [exact Hft|].
    apply (Hapart fresh two_alerts 0%nat 1%nat 0 (301 * second)).
    + vm_compute. discriminate.
    + constructor.
    + rewrite Hft. reflexivity.
    + rewrite Hft. reflexivity.
Defined.

(** When the response sequence has run to its end on an event, the score
    the handler leaves is threshold // 2, whatever the score was before, and
    the last alert is the current time of that event; the score raised by
    the event was at least the threshold. *)
Theorem decay_law (w : world) (self : defender) (event : fs_event) :
  fired (snd (on_modified w self event)) = true ->
  suspicion_score (fst (on_modified w self event)) = alert_threshold self / 2
  /\ last_alert (fst (on_modified w self event)) = Some (now_alert w)
  /\ exists t indicators,
       _check_suspicious_activity w (recorded w self) (src_path event)
       = (t, Ok indicators)
       /\ alert_threshold self
          <= Z.min (suspicion_score self + score_increase_of indicators) 20.
Proof.
  intros Hf.
  destruct (handled_fired_inv w self event _ (on_modified_handled w self event) Hf)
    as [t [ind [Hc [_ [Hcond ->]]]]].
  split; [reflexivity|]. split; [reflexivity|].
  exists t, ind. split; [exact Hc|].
  apply firing_condition_raised in Hcond. apply Hcond.
Qed.

(** The event that brings the score from 8 to the threshold 10 fires and
    leaves the score at 5 and the alert time at 0. *)
Lemma decay_law_witness :
  fired (snd (on_modified (calm 0 []) after_four locked_file)) = true
  /\ suspicion_score (fst (on_modified (calm 0 []) after_four locked_file)) = 10 / 2
  /\ last_alert (fst (on_modified (calm 0 []) after_four locked_file)) = Some 0.
Proof.
  assert (Hf : fired (snd (on_modified (calm 0 []) after_four locked_file)) = true)
    by (vm_compute; reflexivity).
  destruct (decay_law (calm 0 []) after_four locked_file Hf) as [H1 [H2 _]].
  split; [exact Hf|]. split; [exact H1|exact H2].
Defined.

(** C5 (the code departs from the claim).  The score is 8 and the threshold
    10; an event with one true indicator raises the score to 10 and the
    response sequence is entered.  The quarantine directory cannot be
    created, the exception leaves [_take_defensive_actions] and with it
    [on_modified], and lines 204 and 205 do not run: after this firing the
    score is 10, not 10 // 2 = 5, and the last alert is still unset. *)
Theorem decay_skipped_when_response_aborts :
  suspicion_score after_four = 8
  /\ alert_threshold after_four = 10
  /\ last_alert after_four = None
  /\ response_invoked (snd (on_modified quarantine_denied after_four locked_file)) = true
  /\ value_of (snd (on_modified quarantine_denied after_four locked_file))
     = Raise (Exn PermissionError "[Errno 13] Permission denied")
  /\ suspicion_score (fst (on_modified quarantine_denied after_four locked_file)) = 10
  /\ alert_threshold after_four / 2 = 5
  /\ last_alert (fst (on_modified quarantine_denied after_four locked_file)) = None.
Proof.
  split; [vm_compute; reflexivity|].
  split; [reflexivity|].
  split; [vm_compute; reflexivity|].
  split; [vm_compute; reflexivity|].
  split; [vm_compute; reflexivity|].
  split; [vm_compute; reflexivity|].
  split; vm_compute; reflexivity.
Qed.

(** ** The response sequence *)

Lemma isolate_network_returns (w : world) : returned (_isolate_network w) = true.
Proof.
  unfold _isolate_network, try_except, bind, call, returned, value_of.
  destruct (os_system w (netsh_disable "Wi-Fi")); [|reflexivity].
  destruct (os_system w (netsh_disable "Ethernet")); reflexivity.
Qed.

Lemma lock_system_returns (w : world) : returned (_lock_system w) = true.
Proof.
  unfold _lock_system, try_except, bind, call, returned, value_of.
  destruct (os_system w lock_command); reflexivity.
Qed.

Lemma notify_admin_returns (w : world) (self : defender) :
  returned (_notify_admin w self) = true.
Proof.
  unfold _notify_admin, try_except, bind, call, lift, returned, value_of.
  destruct (admin_email self) as [[|c rcpt]|]; try reflexivity.
  destruct (compose_message w (String c rcpt)); [|reflexivity].
  destruct (smtp_send w (String c rcpt)); reflexivity.
Qed.

(** The exit status of a command is dropped: whatever [os.system] returns,
    the entry of the report is the one of a success. *)
Lemma isolate_network_ignores_status (w : world) (s1 s2 : Z) :
  os_system w (netsh_disable "Wi-Fi") = Ok s1 ->
  os_system w (netsh_disable "Ethernet") = Ok s2 ->
  value_of (_isolate_network w) = Ok "Network disabled".
Proof.
  intros H1 H2. unfold _isolate_network, try_except, bind, call, value_of.
  rewrite H1, H2. reflexivity.
Qed.

(** Once the first two actions have returned, the last three cannot end the
    sequence: the report has five entries. *)
Lemma take_defensive_actions_report (w : world) (self : defender)
    (t1 t2 : list effect) (a1 a2 : string) :
  _terminate_suspicious_processes w self = (t1, Ok a1) ->
  _quarantine_suspicious_files w self = (t2, Ok a2) ->
  exists a3 a4 a5,
    value_of (_take_defensive_actions w self) = Ok [a1; a2; a3; a4; a5].
Proof.
  intros H1 H2.
  pose proof (isolate_network_returns w) as H3.
  pose proof (lock_system_returns w) as H4.
  pose proof (notify_admin_returns w self) as H5.
  unfold _take_defensive_actions.
  rewrite H1, H2.
  destruct (_isolate_network w) as [t3 [a3|e3]]; [|discriminate].
  destruct (_lock_system w) as [t4 [a4|e4]]; [|discriminate].
  destruct (_notify_admin w self) as [t5 [a5|e5]]; [|discriminate].
  exists a3, a4, a5. reflexivity.
Qed.

(** When [os.system] raises on the netsh commands and everything else
    works, the report has five entries, the third alone is marked failed,
    and the administrator is written to. *)
Lemma report_when_netsh_raises :
  value_of (_take_defensive_actions netsh_raises alarmed)
  = Ok ["Terminated 0 processes"; "Quarantined 0 files";
        "Network isolation failed"; "System locked"; "Admin notified"]
  /\ In (Call (SmtpSend "admin@example.org"))
        (trace_of (_take_defensive_actions netsh_raises alarmed)).
Proof.
  split; [vm_compute; reflexivity|].
  vm_compute. do 6 right. left. reflexivity.
Qed.

(** C6 (the code departs from the claim).  When the quarantine directory
    cannot be created, [os.makedirs] raises outside any handler: the
    response sequence ends there with the exception, no report is produced,
    and neither the network commands, nor the lock, nor the notification
    run.  And when the netsh commands fail with exit status 1, the report
    has its five entries but none is marked failed. *)
Theorem response_aborts_when_quarantine_fails :
  _take_defensive_actions quarantine_denied alarmed
  = ([Log CRITICAL "ACTIVATING DEFENSIVE MEASURES!";
      Call (Makedirs "/w/QUARANTINE")],
     Raise (Exn PermissionError "[Errno 13] Permission denied"))
  /\ value_of (_take_defensive_actions commands_fail alarmed)
     = Ok ["Terminated 0 processes"; "Quarantined 0 files";
           "Network disabled"; "System locked"; "Admin notified"]
  /\ filter (contains "failed")
       ["Terminated 0 processes"; "Quarantined 0 files";
        "Network disabled"; "System locked"; "Admin notified"] = [].
Proof.
  split; [vm_compute; reflexivity|].
  split; vm_compute; reflexivity.
Qed.

(** A response sequence that ends in an exception leaves the alert time
    unset and the score raised, so the next event enters it again. *)
Lemma aborted_response_is_entered_again :
  response_invoked (snd (on_modified quarantine_denied after_four locked_file)) = true
  /\ last_alert (fst (on_modified quarantine_denied after_four locked_file)) = None
  /\ response_invoked
       (snd (on_modified quarantine_denied
               (fst (on_modified quarantine_denied after_four locked_file))
               locked_file)) = true.
Proof.
  split; [vm_compute; reflexivity|].
  split; vm_compute; reflexivity.
Qed.

(** ** The event window *)

Lemma on_modified_file_operations (w : world) (self : defender) (event : fs_event) :
  file_operations (fst (on_modified w self event))
  = if ignored self event then file_operations self
    else file_operations (recorded w self).
Proof.
  destruct (on_modified_handled w self event)
    as [Hig | t e Hig Hc | t ind Hig Hc Hany | t ind Hig Hc Hany Hf
        | t ind t' e Hig Hc Hany Hf Ht | t ind t' rep Hig Hc Hany Hf Ht];
    rewrite Hig; reflexivity.
Qed.




(** ** The burst detector *)

Lemma mass_modification_returns (w : world) (ops : list Z) :
  exists b, mass_modification w ops = Ok b.
Proof.
  unfold mass_modification.
  destruct (Z.ltb_spec 15 (Z.of_nat (List.length ops))) as [Hlt|Hge];
    [|exists false; reflexivity].
  destruct ops as [|op0 ops]; [simpl in Hlt; lia|].
  eexists. reflexivity.
Qed.

Lemma detect_encryption_returns (w : world) (filepath : string) :
  exists t b, _detect_encryption w filepath = (t, Ok b).
Proof.
  unfold _detect_encryption, try_except.
  match goal with |- context [match ?m with _ => _ end] => destruct m as [t [b|e]] end.
  - exists t, b. reflexivity.
  - eexists. exists false. reflexivity.
Qed.

(** The entry ['mass_modification'] of the indicator set is what the burst
    detector computed on the window. *)
Lemma check_burst_entry (w : world) (self : defender) (filepath : string)
    (t : list effect) (indicators : list (string * bool)) :
  _check_suspicious_activity w self filepath = (t, Ok indicators) ->
  exists b, mass_modification w (file_operations self) = Ok b
            /\ indicator "mass_modification" indicators = Some b.
Proof.
  unfold _check_suspicious_activity.
  destruct (detect_encryption_returns w filepath) as [t1 [b1 ->]].
  destruct (mass_modification w (file_operations self)) as [b|e];
    [|simpl; discriminate].
  destruct (ml_anomaly w self) as [t3 [a|e]]; simpl; [|discriminate].
  intros H. injection H as _ <-. exists b. split; reflexivity.
Qed.

(** The [seconds] field is not the length of the span: a span of one day
    and five seconds has 5 in it, and a span of minus one microsecond
    86399. *)
Example timedelta_seconds_wraps :
  timedelta_seconds (day + 5 * second) = 5
  /\ timedelta_seconds (- microsecond) = 86399
  /\ timedelta_seconds (59 * second + 999999 * microsecond) = 59.
Proof. repeat split. Qed.

Lemma timedelta_seconds_under (d n : Z) :
  0 <= d < day -> (timedelta_seconds d < n <-> d < n * second).
Proof.
  intros Hd. unfold timedelta_seconds. rewrite Z.mod_small by exact Hd.
  unfold second. split; intros H.
  - apply Z.nle_gt. intros Hle. apply Z.nle_gt in H. apply H.
    apply Z.div_le_lower_bound; lia.
  - apply Z.div_lt_upper_bound; lia.
Qed.

(** When the indicator set is evaluated on a window whose first entry lies
    between 0 and one day before the time of the evaluation, the entry
    ['mass_modification'] is true exactly when the window holds more than
    15 entries and that first entry lies less than 10 seconds back: in that
    range the [seconds] field of a [timedelta] is its whole number of
    seconds. *)
Lemma burst_detector (w : world) (self : defender) (filepath : string)
    (t : list effect) (indicators : list (string * bool)) :
  _check_suspicious_activity w self filepath = (t, Ok indicators) ->
  (forall op0, nth_error (file_operations self) 0 = Some op0 ->
               0 <= now_eval w - op0 < day) ->
  (exists b, indicator "mass_modification" indicators = Some b)
  /\ (indicator "mass_modification" indicators = Some true <->
      (15 < List.length (file_operations self))%nat
      /\ exists op0, nth_error (file_operations self) 0 = Some op0
                     /\ now_eval w - op0 < 10 * second).
Proof.
  intros Hc Hspan.
  destruct (check_burst_entry _ _ _ _ _ Hc) as [b [Hb Hind]].
  split; [exists b; exact Hind|].
  rewrite Hind. revert Hb. unfold mass_modification, head_item.
  destruct (Z.ltb_spec 15 (Z.of_nat (List.length (file_operations self))))
    as [Hlt|Hge].
  - destruct (nth_error (file_operations self) 0) as [op0|] eqn:Hhead;
      [|discriminate].
    intros Hb. injection Hb as <-.
    specialize (Hspan op0 eq_refl).
    pose proof (timedelta_seconds_under _ 10 Hspan) as Hsec. split.
    + intros Htrue. injection Htrue as Htrue. apply Z.ltb_lt in Htrue.
      split; [lia|]. exists op0. split; [reflexivity|]. apply Hsec. exact Htrue.
    + intros [_ [op0' [Heq Hlt10]]]. injection Heq as <-.
      f_equal. apply Z.ltb_lt. apply Hsec. exact Hlt10.
  - intros Hb. injection Hb as <-. split; [discriminate|]. intros [Hlen _]. lia.
Qed.

(** A seventeenth event five seconds after sixteen simultaneous ones. *)
Lemma burst_detector_witness :
  (15 < List.length (file_operations (recorded (calm (5 * second) []) busy)))%nat
  /\ nth_error (file_operations (recorded (calm (5 * second) []) busy)) 0 = Some 0
  /\ 0 <= now_eval (calm (5 * second) []) - 0 < day
  /\ indicator "mass_modification" extension_and_burst = Some true.
Proof.
  assert (Hlen : (15 < List.length
                         (file_operations (recorded (calm (5 * second) []) busy)))%nat)
    by (vm_compute; repeat constructor).
  assert (Hhead : nth_error (file_operations (recorded (calm (5 * second) []) busy)) 0
                  = Some 0) by (vm_compute; reflexivity).
  assert (Hspan : 0 <= now_eval (calm (5 * second) []) - 0 < day)
    by (vm_compute; split; [discriminate|reflexivity]).
  assert (Hc : _check_suspicious_activity (calm (5 * second) [])
                 (recorded (calm (5 * second) []) busy) (src_path locked_file)
               = ([Log WARNING
                     "Could not analyze /w/notes.locked: [Errno 2] No such file or directory"],
                  Ok extension_and_burst)) by (vm_compute; reflexivity).
  assert (Hall : forall op0,
             nth_error (file_operations (recorded (calm (5 * second) []) busy)) 0
             = Some op0 ->
             0 <= now_eval (calm (5 * second) []) - op0 < day).
  { intros op0 H. rewrite Hhead in H. injection H as <-. exact Hspan. }
  destruct (burst_detector (calm (5 * second) []) (recorded (calm (5 * second) []) busy)
              (src_path locked_file) _ _ Hc Hall)
    as [_ Hiff].
  split; [exact Hlen|]. split; [exact Hhead|].
  split; [exact Hspan|].
  apply Hiff. split; [exact Hlen|]. exists 0. split; [exact Hhead|].
  vm_compute. reflexivity.
Defined.

(** C8 (the code departs from the claim).  Fifteen changes of a document
    at 0 s have left fifteen entries and the score 0.  A sixteenth change
    comes at 2 s; its timestamp is appended and nothing is pruned.  The
    burst detector reads the clock a day and three seconds after the first
    entry: the window holds 16 entries and the span from its oldest entry is
    over a day, yet the [seconds] field of that span is 3, the handler logs
    ['mass_modification'] as the one true indicator and raises the score by
    2.  In the other direction, with fifteen entries at 5 s, a sixteenth at
    6 s and the clock set back to 2 s before the detector reads it, the span
    is -3 s, its [seconds] field is 86397, and the sixteen changes within
    one second are not flagged: nothing but the failed content analysis is
    logged and the score stays 0. *)
Theorem burst_flag_wraps_with_the_day :
  file_operations (fifteen_saves 0) = repeat 0 15
  /\ suspicion_score (fifteen_saves 0) = 0
  /\ file_operations (fst (on_modified resumed_next_day (fifteen_saves 0) report_file))
     = repeat 0 15 ++ [2 * second]
  /\ now_eval resumed_next_day - 0 = day + 3 * second
  /\ timedelta_seconds (now_eval resumed_next_day - 0) = 3
  /\ snd (on_modified resumed_next_day (fifteen_saves 0) report_file)
     = ([Log WARNING
           "Could not analyze /w/report.txt: 'float' object has no attribute 'bit_length'";
         Log WARNING
           "Suspicious activity detected on report.txt. Indicators: ['mass_modification']. Score: 2/10"],
        Ok tt)
  /\ suspicion_score (fst (on_modified resumed_next_day (fifteen_saves 0) report_file))
     = 2
  /\ file_operations
       (fst (on_modified clock_set_back (fifteen_saves (5 * second)) report_file))
     = repeat (5 * second) 15 ++ [6 * second]
  /\ now_eval clock_set_back - 5 * second = - (3 * second)
  /\ timedelta_seconds (now_eval clock_set_back - 5 * second) = 86397
  /\ snd (on_modified clock_set_back (fifteen_saves (5 * second)) report_file)
     = ([Log WARNING
           "Could not analyze /w/report.txt: 'float' object has no attribute 'bit_length'"],
        Ok tt)
  /\ suspicion_score
       (fst (on_modified clock_set_back (fifteen_saves (5 * second)) report_file))
     = 0.
Proof.
  split; [vm_compute; reflexivity|].
  split; [vm_compute; reflexivity|].
  split; [vm_compute; reflexivity|].
  split; [vm_compute; reflexivity|].
  split; [vm_compute; reflexivity|].
  split; [vm_compute; reflexivity|].
  split; [vm_compute; reflexivity|].
  split; [vm_compute; reflexivity|].
  split; [vm_compute; reflexivity|].
  split; [vm_compute; reflexivity|].
  split; vm_compute; reflexivity.
Qed.

(** ** The window the burst detector looks at *)

Lemma prune_app (now : nat -> Z) (ops : list Z) (i : nat) (x : Z) :
  prune now i (ops ++ [x])
  = prune now i ops
    ++ (if now (i + List.length ops)%nat - x <? 1 * minute then [x] else []).
Proof.
  revert i. induction ops as [|a ops IH]; intros i; cbn [prune app List.length].
  - rewrite Nat.add_0_r. change (timedelta_minutes 1) with (1 * minute).
    destruct (now i - x <? 1 * minute); reflexivity.
  - rewrite Nat.add_succ_r, (IH (S i)).
    destruct (now i - a <? timedelta_minutes 1); reflexivity.
Qed.

Lemma get_system_features_value (w : world) :
  value_of (_get_system_features w)
  = match psutil_sample w with
    | Ok features => Ok (Some features)
    | Raise _ => Ok None
    end.
Proof.
  unfold _get_system_features. destruct (psutil_sample w); reflexivity.
Qed.

Lemma value_bind {A B} (m : M A) (k : A -> M B) :
  value_of (bind m k)
  = match value_of m with
    | Ok a => value_of (k a)
    | Raise e => Raise e
    end.
Proof.
  destruct m as [t [a|e]]; simpl; [destruct (k a); reflexivity|reflexivity].
Qed.

Lemma ml_anomaly_value (w : world) (self : defender) :
  value_of (ml_anomaly w self)
  = match model self, psutil_sample w with
    | Some mdl, Ok (f :: fs) =>
        match mdl (f :: fs) with
        | Ok label => Ok (label =? -1)
        | Raise e => Raise e
        end
    | _, _ => Ok false
    end.
Proof.
  unfold ml_anomaly. destruct (model self) as [mdl|]; [|reflexivity].
  rewrite value_bind, get_system_features_value.
  destruct (psutil_sample w) as [[|f fs]|e]; try reflexivity.
  rewrite value_bind. simpl. destruct (mdl (f :: fs)); reflexivity.
Qed.

Lemma check_value (w : world) (self : defender) (filepath : string) :
  match value_of (ml_anomaly w self) with
  | Ok _ => returned (_check_suspicious_activity w self filepath) = true
  | Raise e => value_of (_check_suspicious_activity w self filepath) = Raise e
  end.
Proof.
  unfold returned, _check_suspicious_activity.
  destruct (detect_encryption_returns w filepath) as [t1 [high H1]].
  destruct (mass_modification_returns w (file_operations self)) as [burst H2].
  rewrite H1, H2. rewrite value_bind. cbn [value_of snd].
  rewrite value_bind. cbn [value_of snd lift]. rewrite value_bind.
  destruct (value_of (ml_anomaly w self)); reflexivity.
Qed.

(** An exception of the indicator evaluation is one the model raised. *)
Lemma check_raises_with_model (w : world) (self : defender) (filepath : string)
    (t : list effect) (e : exception) :
  _check_suspicious_activity w self filepath = (t, Raise e) ->
  exists mdl f fs,
    model self = Some mdl /\ psutil_sample w = Ok (f :: fs)
    /\ mdl (f :: fs) = Raise e.
Proof.
  intros Hc. pose proof (check_value w self filepath) as Hv.
  rewrite ml_anomaly_value in Hv. unfold returned in Hv. rewrite Hc in Hv.
  cbn [value_of snd] in Hv.
  destruct (model self) as [mdl|]; [|discriminate].
  destruct (psutil_sample w) as [[|f fs]|e0]; try discriminate.
  destruct (mdl (f :: fs)) as [label|e1] eqn:Hm; [discriminate|].
  injection Hv as ->. exists mdl, f, fs. auto.
Qed.

(** C10, counterexample: the handler is held up for a minute between the
    insertion of the timestamp and the pruning.  The event is not ignored
    and its timestamp 0 is appended; the pruning reads the clock at 60 s,
    finds the entry a full minute old and drops it.  The indicator set is
    then evaluated, as the two warnings show, on an empty window. *)
Lemma window_empty_at_evaluation :
  ignored fresh locked_file = false
  /\ file_operations fresh ++ [now_append held_up] = [0]
  /\ file_operations (fst (on_modified held_up fresh locked_file)) = []
  /\ snd (on_modified held_up fresh locked_file)
     = ([Log WARNING
           "Could not analyze /w/notes.locked: [Errno 2] No such file or directory";
         Log WARNING
           "Suspicious activity detected on notes.locked. Indicators: ['suspicious_extension']. Score: 2/10"],
        Ok tt)
  /\ mass_modification held_up
       (file_operations (fst (on_modified held_up fresh locked_file)))
     = Ok false.
Proof.
  split; [reflexivity|].
  split; [reflexivity|].
  split; [vm_compute; reflexivity|].
  split; vm_compute; reflexivity.
Qed.

(** C10, amended: whenever the indicator set is evaluated for an event, the
    burst detector returns a value, whatever the events before and whatever
    the clock reads: it looks up the first entry of the window only once
    the window is known to hold more than 15 entries.  The window it is
    evaluated on is the one the handler leaves: the old entries that passed
    the pruning, followed by the timestamp of the event if the clock read
    for it in the pruning is less than a minute past it; the window may be
    empty.  What the handler does next follows the result of that
    evaluation, and an exception that leaves the handler is one the model
    raised or comes after the response sequence was entered. *)
Theorem burst_lookup_never_fails (w : world) (self : defender) (event : fs_event) :
  ignored self event = false ->
  file_operations (fst (on_modified w self event))
  = prune (now_prune w) 0 (file_operations self)
    ++ (if now_prune w (List.length (file_operations self)) - now_append w
           <? 1 * minute
        then [now_append w] else [])
  /\ (exists b,
        mass_modification w (file_operations (fst (on_modified w self event)))
        = Ok b)
  /\ (exists t r,
        _check_suspicious_activity w
          (set_file_operations self (file_operations (fst (on_modified w self event))))
          (src_path event) = (t, r)
        /\ (exists t', trace_of (snd (on_modified w self event)) = t ++ t')
        /\ match r with
           | Raise e => snd (on_modified w self event) = (t, Raise e)
           | Ok indicators =>
               if any (values indicators)
               then exists self',
                      In (Log WARNING
                            (suspicious_text w self' (src_path event) indicators))
                         (trace_of (snd (on_modified w self event)))
               else snd (on_modified w self event) = (t, Ok tt)
           end)
  /\ (forall e,
        value_of (snd (on_modified w self event)) = Raise e ->
        (exists mdl f fs,
           model self = Some mdl /\ psutil_sample w = Ok (f :: fs)
           /\ mdl (f :: fs) = Raise e)
        \/ response_invoked (snd (on_modified w self event)) = true).
Proof.
  intros Hig.
  assert (Hwin : file_operations (fst (on_modified w self event))
                 = file_operations (recorded w self))
    by (rewrite on_modified_file_operations, Hig; reflexivity).
  rewrite Hwin.
  change (set_file_operations self (file_operations (recorded w self)))
    with (recorded w self).
  split.
  { unfold recorded. cbn [file_operations set_file_operations].
    rewrite prune_app. reflexivity. }
  split; [apply mass_modification_returns|].
  destruct (on_modified_handled w self event)
    as [Hig' | t e Hig' Hc | t ind Hig' Hc Hany | t ind Hig' Hc Hany Hf
        | t ind t' e Hig' Hc Hany Hf Ht | t ind t' rep Hig' Hc Hany Hf Ht];
    [congruence| | | | |]; cbn [fst snd trace_of value_of].
  - split.
    + exists t, (Raise e). split; [exact Hc|].
      split; [exists []; rewrite app_nil_r; reflexivity|reflexivity].
    + intros e0 He. injection He as <-. left.
      exact (check_raises_with_model _ _ _ _ _ Hc).
  - split; [|discriminate].
    exists t, (Ok ind). split; [exact Hc|].
    split; [exists []; rewrite app_nil_r; reflexivity|].
    rewrite Hany. reflexivity.
  - split; [|discriminate].
    exists t, (Ok ind). split; [exact Hc|].
    split; [eexists; reflexivity|].
    rewrite Hany. exists (raised w self ind).
    apply in_or_app. right. left. reflexivity.
  - split.
    + exists t, (Ok ind). split; [exact Hc|].
      split; [eexists; rewrite <- app_assoc; reflexivity|].
      rewrite Hany. exists (raised w self ind).
      apply in_or_app. left. apply in_or_app. right. left. reflexivity.
    + intros e0 _. right. unfold response_invoked, trace_of. cbn [fst].
      rewrite existsb_app, (take_trace_loud _ _ _ _ Ht). apply orb_true_r.
  - split; [|discriminate].
    exists t, (Ok ind). split; [exact Hc|].
    split; [eexists; rewrite <- app_assoc; reflexivity|].
    rewrite Hany. exists (raised w self ind).
    apply in_or_app. left. apply in_or_app. right. left. reflexivity.
Qed.

(** An event at 70 s after one at 0 s: the old entry is pruned, the new one
    stays, and the handler returns. *)
Lemma burst_lookup_never_fails_witness :
  ignored (run fresh [at_time 0]) locked_file = false
  /\ file_operations
       (fst (on_modified (calm (70 * second) []) (run fresh [at_time 0]) locked_file))
     = [70 * second]
  /\ exists b,
       mass_modification (calm (70 * second) [])
         (file_operations
            (fst (on_modified (calm (70 * second) []) (run fresh [at_time 0])
                    locked_file)))
       = Ok b.
Proof.
  assert (Hig : ignored (run fresh [at_time 0]) locked_file = false)
    by (vm_compute; reflexivity).
  destruct (burst_lookup_never_fails (calm (70 * second) []) (run fresh [at_time 0])
              locked_file Hig) as [Hwin [Hb _]].
  split; [exact Hig|]. split; [|exact Hb].
  rewrite Hwin. vm_compute. reflexivity.
Defined.

(** ** Ignored events *)

(** C9, counterexample: the watched root is /w and a file of the sibling
    directory /w2 is modified.  The path lies outside the root, yet it
    starts with the characters of the root, the handler treats the event,
    and the event window gains an entry. *)
Lemma sibling_of_root_is_handled :
  lies_under (watch_path fresh) (src_path sibling_file) = false
  /\ lies_under (watch_path fresh) (src_path locked_file) = true
  /\ is_directory sibling_file = false
  /\ file_operations fresh = []
  /\ file_operations (fst (on_modified (calm 0 []) fresh sibling_file)) = [0]
  /\ fst (on_modified (calm 0 []) fresh sibling_file) <> fresh.
Proof.
  split; [vm_compute; reflexivity|].
  split; [vm_compute; reflexivity|].
  split; [reflexivity|].
  split; [reflexivity|].
  split; [vm_compute; reflexivity|].
  intros H. apply (f_equal file_operations) in H. vm_compute in H. discriminate.
Qed.

(** C9, amended: for every directory event, and for every event whose path
    does not start with the characters of the watched root, the handler
    changes nothing: the object is left as it was, event window, score and
    last alert included, nothing is logged and the response sequence is not
    entered. *)
Theorem ignored_events_change_nothing (w : world) (self : defender) (event : fs_event) :
  is_directory event = true \/ startswith (src_path event) (watch_path self) = false ->
  on_modified w self event = (self, ([], Ok tt))
  /\ file_operations (fst (on_modified w self event)) = file_operations self
  /\ suspicion_score (fst (on_modified w self event)) = suspicion_score self
  /\ last_alert (fst (on_modified w self event)) = last_alert self
  /\ response_invoked (snd (on_modified w self event)) = false.
Proof.
  intros H.
  assert (Heq : on_modified w self event = (self, ([], Ok tt))).
  { unfold on_modified. destruct H as [-> | ->]; [reflexivity|].
    rewrite orb_true_r. reflexivity. }
  rewrite Heq. repeat split; reflexivity.
Qed.

(** A file outside the root by its first characters, and a directory inside
    the root. *)
Lemma ignored_events_change_nothing_witness :
  startswith "/srv/other.txt" (watch_path busy) = false
  /\ on_modified (calm 0 []) busy {| is_directory := false; src_path := "/srv/other.txt" |}
     = (busy, ([], Ok tt))
  /\ on_modified (calm 0 []) busy {| is_directory := true; src_path := "/w/sub" |}
     = (busy, ([], Ok tt)).
Proof.
  assert (Hout : startswith "/srv/other.txt" (watch_path busy) = false)
    by (vm_compute; reflexivity).
  split; [exact Hout|]. split.
  - exact (proj1 (ignored_events_change_nothing (calm 0 []) busy
                    {| is_directory := false; src_path := "/srv/other.txt" |}
                    (or_intror Hout))).
  - exact (proj1 (ignored_events_change_nothing (calm 0 []) busy
                    {| is_directory := true; src_path := "/w/sub" |}
                    (or_introl eq_refl))).
Defined.

(** * Further properties of the code *)

(** ** What is classified as encrypted *)

Lemma detect_encryption_true_iff (w : world) (filepath : string) :
  value_of (_detect_encryption w filepath) = Ok true <-> file_read w filepath = Ok [].
Proof.
  destruct (file_read w filepath) as [[|b rest]|e] eqn:Hread.
  - split; [reflexivity|]. intros _.
    unfold _detect_encryption, read_window. rewrite Hread. reflexivity.
  - destruct (detect_encryption_nonempty w filepath (b :: rest) Hread) as [e [-> _]];
      [discriminate|].
    split; discriminate.
  - unfold _detect_encryption, read_window. rewrite Hread, bind_lift_Raise.
    split; discriminate.
Qed.

(** X1: the classification never raises, and it returns true for exactly
    one kind of file: one that opens and holds no byte. *)
Theorem detect_encryption_flags_only_empty_files (w : world) (filepath : string) :
  (exists t b, _detect_encryption w filepath = (t, Ok b))
  /\ (value_of (_detect_encryption w filepath) = Ok true
      <-> file_read w filepath = Ok []).
Proof.
  split; [apply detect_encryption_returns|apply detect_encryption_true_iff].
Qed.

(** ** The indicator set *)

(** X2: the anomaly indicator is true exactly when a model is loaded, the
    sampling of the system succeeds with a non-empty vector and the model
    answers -1; its evaluation raises exactly when the model itself raises
    on such a vector.  Without a model, or when the sampling fails, the
    indicator is false and nothing is raised. *)
Theorem ml_anomaly_characterized (w : world) (self : defender) :
  (value_of (ml_anomaly w self) = Ok true <->
   exists mdl f fs,
     model self = Some mdl /\ psutil_sample w = Ok (f :: fs)
     /\ mdl (f :: fs) = Ok (-1))
  /\ (forall e,
        value_of (ml_anomaly w self) = Raise e <->
        exists mdl f fs,
          model self = Some mdl /\ psutil_sample w = Ok (f :: fs)
          /\ mdl (f :: fs) = Raise e).
Proof.
  rewrite ml_anomaly_value. split; [|intros e].
  - destruct (model self) as [mdl|];
      [|split; [discriminate|intros [? [? [? [? _]]]]; discriminate]].
    destruct (psutil_sample w) as [[|f fs]|e0];
      try (split; [discriminate|intros [? [? [? [_ [? _]]]]]; discriminate]).
    destruct (mdl (f :: fs)) as [label|e0] eqn:Hm.
    + split.
      * intros H. injection H as H. apply Z.eqb_eq in H. subst label.
        exists mdl, f, fs. auto.
      * intros [mdl' [f' [fs' [Hm' [Hs' Hl]]]]].
        injection Hm' as <-. injection Hs' as <- <-.
        rewrite Hm in Hl. injection Hl as ->. reflexivity.
    + split; [discriminate|].
      intros [mdl' [f' [fs' [Hm' [Hs' Hl]]]]].
      injection Hm' as <-. injection Hs' as <- <-. congruence.
  - destruct (model self) as [mdl|];
      [|split; [discriminate|intros [? [? [? [? _]]]]; discriminate]].
    destruct (psutil_sample w) as [[|f fs]|e0];
      try (split; [discriminate|intros [? [? [? [_ [? _]]]]]; discriminate]).
    destruct (mdl (f :: fs)) as [label|e0] eqn:Hm.
    + split; [discriminate|].
      intros [mdl' [f' [fs' [Hm' [Hs' Hl]]]]].
      injection Hm' as <-. injection Hs' as <- <-. congruence.
    + split.
      * intros H. injection H as ->. exists mdl, f, fs. auto.
      * intros [mdl' [f' [fs' [Hm' [Hs' Hl]]]]].
        injection Hm' as <-. injection Hs' as <- <-. congruence.
Qed.

(** The indicator set always has its four keys, in the order of the
    source. *)
Lemma check_shape (w : world) (self : defender) (filepath : string)
    (t : list effect) (indicators : list (string * bool)) :
  _check_suspicious_activity w self filepath = (t, Ok indicators) ->
  exists high burst anomaly,
    indicators
    = [("suspicious_extension",
        existsb (endswith (lower filepath)) suspicious_suffixes);
       ("high_entropy", high); ("mass_modification", burst);
       ("ml_anomaly", anomaly)].
Proof.
  unfold _check_suspicious_activity.
  destruct (detect_encryption_returns w filepath) as [t1 [high ->]].
  destruct (mass_modification w (file_operations self)) as [burst|e];
    [|simpl; discriminate].
  destruct (ml_anomaly w self) as [t3 [anomaly|e]]; simpl; [|discriminate].
  intros H. injection H as _ <-. exists high, burst, anomaly. reflexivity.
Qed.

(** X3: when the model raises on the sampled vector, the exception leaves
    [on_modified]; the event has already been appended to the window and
    the window pruned, while the score and the last alert are left as they
    were and the response sequence is not entered. *)
Theorem model_failure_leaves_event_recorded (w : world) (self : defender)
    (event : fs_event) (mdl : ml_model) (f : Q) (fs : list Q) (e : exception) :
  ignored self event = false ->
  model self = Some mdl ->
  psutil_sample w = Ok (f :: fs) ->
  mdl (f :: fs) = Raise e ->
  value_of (snd (on_modified w self event)) = Raise e
  /\ file_operations (fst (on_modified w self event))
     = prune (now_prune w) 0 (file_operations self ++ [now_append w])
  /\ suspicion_score (fst (on_modified w self event)) = suspicion_score self
  /\ last_alert (fst (on_modified w self event)) = last_alert self
  /\ response_invoked (snd (on_modified w self event)) = false.
Proof.
  intros Hig Hmodel Hsample Hraise.
  assert (Hml : value_of (ml_anomaly w (recorded w self)) = Raise e).
  { rewrite ml_anomaly_value. cbn [model recorded set_file_operations].
    rewrite Hmodel, Hsample, Hraise. reflexivity. }
  pose proof (check_value w (recorded w self) (src_path event)) as Hcv.
  rewrite Hml in Hcv.
  destruct (on_modified_handled w self event)
    as [Hig' | t e' _ Hc | t ind _ Hc Hany | t ind _ Hc Hany Hf
        | t ind t' e' _ Hc Hany Hf Ht | t ind t' rep _ Hc Hany Hf Ht];
    try congruence;
    try (rewrite Hc in Hcv; discriminate).
  rewrite Hc in Hcv. simpl in Hcv. injection Hcv as ->.
  simpl. repeat split.
  unfold response_invoked, trace_of. simpl.
  exact (check_trace_quiet _ _ _ _ _ Hc).
Qed.

(** A defender with a model that fails, on a machine that answers the
    readings. *)
Lemma model_failure_leaves_event_recorded_witness :
  ignored (with_model fresh (Some broken_model)) locked_file = false
  /\ suspicion_score
       (fst (on_modified sampled (with_model fresh (Some broken_model)) locked_file))
     = 0
  /\ file_operations
       (fst (on_modified sampled (with_model fresh (Some broken_model)) locked_file))
     = [0].
Proof.
  assert (Hig : ignored (with_model fresh (Some broken_model)) locked_file = false)
    by reflexivity.
  destruct (model_failure_leaves_event_recorded sampled
              (with_model fresh (Some broken_model)) locked_file broken_model
              12%Q [40; 180; 55; 1000; 2000]%Q
              (Exn ValueError "X has 6 features, but IsolationForest is expecting 10")
              Hig eq_refl eq_refl eq_refl)
    as [_ [Hw [Hs _]]].
  split; [exact Hig|]. split; [exact Hs|exact Hw].
Defined.

(** ** Names the defender reacts to *)

Lemma lower_app (a b : string) : lower (a ++ b) = (lower a ++ lower b)%string.
Proof. induction a as [|c a IH]; simpl; [reflexivity|rewrite IH; reflexivity]. Qed.

Lemma string_length_app (a b : string) :
  String.length (a ++ b) = (String.length a + String.length b)%nat.
Proof. induction a as [|c a IH]; simpl; [reflexivity|rewrite IH; reflexivity]. Qed.

Lemma substring_whole (s : string) : String.substring 0 (String.length s) s = s.
Proof. induction s as [|c s IH]; simpl; [reflexivity|rewrite IH; reflexivity]. Qed.

Lemma substring_skip (a s : string) :
  String.substring (String.length a) (String.length s) (a ++ s) = s.
Proof. induction a as [|c a IH]; simpl; [apply substring_whole|exact IH]. Qed.

Lemma endswith_app (a s : string) : endswith (a ++ s) s = true.
Proof.
  unfold endswith. rewrite string_length_app.
  replace (String.length a + String.length s - String.length s)%nat
    with (String.length a) by lia.
  rewrite substring_skip, String.eqb_refl.
  destruct (Nat.leb_spec (String.length s) (String.length a + String.length s));
    [reflexivity|lia].
Qed.

Lemma suspicious_extension_app (stem ext : string) :
  In (lower ext) suspicious_suffixes ->
  existsb (endswith (lower (stem ++ ext))) suspicious_suffixes = true.
Proof.
  intros Hin. apply existsb_exists. exists (lower ext). split; [exact Hin|].
  rewrite lower_app. apply endswith_app.
Qed.

(** X4: a path that ends, in any mix of letter cases, with one of
    .encrypted, .locked, .crypt or .ransom always has the indicator
    [suspicious_extension] set, so its indicator set has a true entry and
    the event is worth 2 to 8 points; the paths the simulator renames its
    files to ([filepath].encrypted) are of that kind. *)
Theorem suspicious_suffix_is_flagged (w : world) (self : defender)
    (stem ext : string) (t : list effect) (indicators : list (string * bool)) :
  In (lower ext) suspicious_suffixes ->
  _check_suspicious_activity w self (stem ++ ext) = (t, Ok indicators) ->
  indicator "suspicious_extension" indicators = Some true
  /\ any (values indicators) = true
  /\ 2 <= score_increase_of indicators <= 8.
Proof.
  intros Hin Hc. destruct (check_shape _ _ _ _ _ Hc) as [high [burst [anomaly ->]]].
  rewrite (suspicious_extension_app stem ext Hin).
  split; [reflexivity|]. split; [reflexivity|].
  destruct high, burst, anomaly; vm_compute; split; discriminate.
Qed.

(** The file the simulator makes of /w/file_3.docx. *)
Lemma suspicious_suffix_is_flagged_witness :
  In (lower ".encrypted") suspicious_suffixes
  /\ ransomware_simulator.encrypted_path "/w/file_3.docx"
     = ("/w/file_3.docx" ++ ".encrypted")%string
  /\ indicator "suspicious_extension"
       [("suspicious_extension", true); ("high_entropy", false);
        ("mass_modification", false); ("ml_anomaly", false)] = Some true.
Proof.
  assert (Hin : In (lower ".encrypted") suspicious_suffixes) by (left; reflexivity).
  destruct (suspicious_suffix_is_flagged (calm 0 []) fresh "/w/file_3.docx"
              ".encrypted"
              [Log WARNING
                 "Could not analyze /w/file_3.docx.encrypted: [Errno 2] No such file or directory"]
              _ Hin eq_refl) as [H _].
  split; [exact Hin|]. split; [reflexivity|exact H].
Defined.

(** ** Runs of the state machine *)

Lemma score_increase_le_8 (w : world) (self : defender) (filepath : string)
    (t : list effect) (indicators : list (string * bool)) :
  _check_suspicious_activity w self filepath = (t, Ok indicators) ->
  0 <= score_increase_of indicators <= 8.
Proof.
  intros Hc. destruct (check_shape _ _ _ _ _ Hc) as [high [burst [anomaly ->]]].
  destruct (existsb (endswith (lower filepath)) suspicious_suffixes),
    high, burst, anomaly; vm_compute; split; discriminate.
Qed.

Lemma on_modified_score_step (w : world) (self : defender) (event : fs_event) :
  0 <= alert_threshold self ->
  suspicion_score (fst (on_modified w self event)) <= suspicion_score self + 8.
Proof.
  intros Hthr.
  destruct (on_modified_handled w self event)
    as [Hig | t e Hig Hc | t ind Hig Hc Hany | t ind Hig Hc Hany Hf
        | t ind t' e Hig Hc Hany Hf Ht | t ind t' rep Hig Hc Hany Hf Ht];
    simpl; try lia;
    pose proof (score_increase_le_8 _ _ _ _ _ Hc) as Hinc; try lia.
  apply firing_condition_raised in Hf. destruct Hf as [Hf _].
  assert (alert_threshold self / 2 <= alert_threshold self); [|lia].
  apply Z.div_le_upper_bound; lia.
Qed.

Lemma run_score_step (self : defender) (evs : list (world * fs_event)) :
  0 <= alert_threshold self ->
  suspicion_score (run self evs)
  <= suspicion_score self + 8 * Z.of_nat (List.length evs).
Proof.
  revert self. induction evs as [|[w event] evs IH]; intros self Hthr.
  - simpl. lia.
  - cbn [run List.length].
    pose proof (on_modified_score_step w self event Hthr) as Hstep.
    destruct (on_modified_config w self event) as [Hcfg _].
    specialize (IH (fst (on_modified w self event))).
    rewrite Hcfg in IH. specialize (IH Hthr). lia.
Qed.

(** X5: an event raises the score by at most 8, so after n events from the
    start the score is at most 8 n, and the response sequence cannot be
    entered on the event that follows them unless the threshold is at most
    8 (n + 1); the threshold is taken non-negative. *)
Theorem score_grows_by_at_most_eight
    (p : string) (thr cd : Z) (mail : option string) (mdl : option ml_model)
    (evs : list (world * fs_event)) :
  0 <= thr ->
  suspicion_score (run (__init__ p thr cd mail mdl) evs)
  <= 8 * Z.of_nat (List.length evs)
  /\ forall w event,
       response_invoked
         (snd (on_modified w (run (__init__ p thr cd mail mdl) evs) event)) = true ->
       thr <= 8 * (Z.of_nat (List.length evs) + 1).
Proof.
  intros Hthr.
  pose proof (run_score_step (__init__ p thr cd mail mdl) evs Hthr) as Hrun.
  cbn [suspicion_score __init__] in Hrun.
  split; [lia|].
  intros w event Hinv.
  apply (handled_invoked _ _ _ _ (on_modified_handled _ _ _)) in Hinv.
  destruct Hinv as [_ [t [ind [Hc [_ Hf]]]]].
  apply firing_condition_raised in Hf. destruct Hf as [Hf _].
  destruct (run_config (__init__ p thr cd mail mdl) evs) as [Hcfg _].
  rewrite Hcfg in Hf. cbn [alert_threshold __init__] in Hf.
  pose proof (score_increase_le_8 _ _ _ _ _ Hc). lia.
Qed.

(** With the default threshold 10, no response on the first event. *)
Lemma score_grows_by_at_most_eight_witness :
  0 <= 10
  /\ suspicion_score (run (__init__ "/w" 10 5 None None) [at_time 0]) <= 8 * 1.
Proof.
  assert (H0 : 0 <= 10) by discriminate.
  split; [exact H0|].
  exact (proj1 (score_grows_by_at_most_eight "/w" 10 5 None None [at_time 0] H0)).
Defined.

Lemma prune_length (now : nat -> Z) (ops : list Z) (i : nat) :
  (List.length (prune now i ops) <= List.length ops)%nat.
Proof.
  revert i. induction ops as [|a ops IH]; intros i; cbn [prune List.length]; [lia|].
  specialize (IH (S i)).
  destruct (now i - a <? timedelta_minutes 1); cbn [List.length]; lia.
Qed.

Lemma on_modified_window_length (w : world) (self : defender) (event : fs_event) :
  (List.length (file_operations (fst (on_modified w self event)))
   <= S (List.length (file_operations self)))%nat.
Proof.
  rewrite on_modified_file_operations.
  destruct (ignored self event); [lia|].
  unfold recorded. cbn [file_operations set_file_operations].
  pose proof (prune_length (now_prune w) (file_operations self ++ [now_append w]) 0)
    as H.
  rewrite length_app in H. simpl in H. lia.
Qed.

Lemma run_window_length (self : defender) (evs : list (world * fs_event)) :
  (List.length (file_operations (run self evs))
   <= List.length (file_operations self) + List.length evs)%nat.
Proof.
  revert self. induction evs as [|[w event] evs IH]; intros self;
    cbn [run List.length]; [lia|].
  specialize (IH (fst (on_modified w self event))).
  pose proof (on_modified_window_length w self event). lia.
Qed.

(** X6: the window holds at most one entry per event received, so the
    burst detector answers false on each of the first 15 events after the
    start, however close together they come. *)
Theorem burst_needs_sixteen_events
    (p : string) (thr cd : Z) (mail : option string) (mdl : option ml_model)
    (evs : list (world * fs_event)) (w : world) :
  (List.length evs < 15)%nat ->
  (List.length (file_operations (run (__init__ p thr cd mail mdl) evs))
   <= List.length evs)%nat
  /\ mass_modification w
       (file_operations (recorded w (run (__init__ p thr cd mail mdl) evs)))
     = Ok false.
Proof.
  intros Hlen.
  pose proof (run_window_length (__init__ p thr cd mail mdl) evs) as Hrun.
  cbn [file_operations __init__ List.length] in Hrun.
  split; [lia|].
  unfold mass_modification, recorded. cbn [file_operations set_file_operations].
  pose proof (prune_length (now_prune w)
                (file_operations (run (__init__ p thr cd mail mdl) evs)
                 ++ [now_append w]) 0) as Hp.
  rewrite length_app in Hp. simpl in Hp.
  destruct (Z.ltb_spec 15
              (Z.of_nat
                 (List.length
                    (prune (now_prune w) 0
                       (file_operations (run (__init__ p thr cd mail mdl) evs)
                        ++ [now_append w])))));
    [lia|reflexivity].
Qed.

(** Fourteen simultaneous events, then a fifteenth. *)
Lemma burst_needs_sixteen_events_witness :
  (List.length (repeat (at_time 0) 14) < 15)%nat
  /\ mass_modification (calm 0 [])
       (file_operations
          (recorded (calm 0 []) (run (__init__ "/w" 10 5 None None)
                                   (repeat (at_time 0) 14))))
     = Ok false.
Proof.
  assert (Hlen : (List.length (repeat (at_time 0) 14) < 15)%nat)
    by (vm_compute; constructor).
  split; [exact Hlen|].
  exact (proj2 (burst_needs_sixteen_events "/w" 10 5 None None
                  (repeat (at_time 0) 14) (calm 0 []) Hlen)).
Defined.

Lemma latest_app_one (ts : list Z) (x : Z) : latest (ts ++ [x]) = Some x.
Proof. unfold latest. rewrite map_app. simpl. apply last_last. Qed.

Lemma latest_cons (a : Z) (ts : list Z) :
  latest (a :: ts) = match latest ts with Some x => Some x | None => Some a end.
Proof.
  unfold latest. revert a. induction ts as [|b ts IH]; intros a; [reflexivity|].
  cbn [map]. change (last (Some a :: Some b :: map Some ts) None)
    with (last (Some b :: map Some ts) None).
  specialize (IH b). cbn [map] in IH. rewrite IH.
  destruct (last (map Some ts) None); reflexivity.
Qed.

Lemma latest_opt_app (o : option Z) (ts : list Z) :
  latest (opt_list o ++ ts) = match latest ts with Some x => Some x | None => o end.
Proof.
  destruct o as [a|]; simpl; [apply latest_cons|].
  destruct (latest ts); reflexivity.
Qed.

(** X7: after any sequence of events, the last alert is the time of the
    latest firing that ran to its end during the sequence, or what it was
    before when there was none; from the start it is unset exactly when no
    firing completed. *)
Theorem last_alert_is_latest_firing (self : defender)
    (evs : list (world * fs_event)) :
  last_alert (run self evs)
  = latest (opt_list (last_alert self) ++ firing_times self evs).
Proof.
  revert self. induction evs as [|[w event] evs IH]; intros self.
  - simpl. rewrite app_nil_r. destruct (last_alert self); reflexivity.
  - cbn [run firing_times].
    specialize (IH (fst (on_modified w self event))).
    pose proof (on_modified_last_alert w self event) as Hla.
    destruct (on_modified w self event) as [self' m]. simpl in *.
    rewrite IH, !latest_opt_app.
    destruct Hla as [[-> [-> _]]|[-> ->]]; simpl.
    + rewrite latest_cons. destruct (latest (firing_times self' evs)); reflexivity.
    + reflexivity.
Qed.

Lemma on_modified_ignored (w : world) (self : defender) (event : fs_event) :
  ignored self event = true -> on_modified w self event = (self, ret tt).
Proof.
  intros H. unfold on_modified. fold (ignored self event). rewrite H. reflexivity.
Qed.

Lemma ignored_same_root (a b : defender) (event : fs_event) :
  watch_path a = watch_path b -> ignored a event = ignored b event.
Proof. intros H. unfold ignored. rewrite H. reflexivity. Qed.

Lemma handled_events_same_root (a b : defender) (evs : list (world * fs_event)) :
  watch_path a = watch_path b -> handled_events a evs = handled_events b evs.
Proof.
  intros H. unfold handled_events. apply filter_ext. intros [w event]. simpl.
  rewrite (ignored_same_root a b event H). reflexivity.
Qed.

(** X8: directory events and events whose path does not start with the
    watched root can be struck from any sequence: the defender ends in the
    same state and fires at the same times. *)
Theorem ignored_events_can_be_dropped (self : defender)
    (evs : list (world * fs_event)) :
  run self (handled_events self evs) = run self evs
  /\ firing_times self (handled_events self evs) = firing_times self evs.
Proof.
  revert self. induction evs as [|[w event] evs IH]; intros self; [split; reflexivity|].
  unfold handled_events. cbn [filter snd]. fold (handled_events self evs).
  destruct (ignored self event) eqn:Hig; cbn [negb].
  - cbn [run firing_times]. rewrite (on_modified_ignored w self event Hig).
    cbn [fst]. unfold fired, response_invoked, returned. simpl. apply IH.
  - cbn [run firing_times].
    destruct (on_modified_config w self event) as [_ [_ Hroot]].
    rewrite <- (handled_events_same_root _ _ evs Hroot).
    destruct (IH (fst (on_modified w self event))) as [IH1 IH2].
    destruct (on_modified w self event) as [self' m]. simpl in *.
    rewrite IH1, IH2. split; reflexivity.
Qed.

(** X9: when the response sequence is entered and ends in an exception,
    the handler leaves the last alert as it was and the score at or above
    the threshold; so the response sequence is entered again on the next
    event that has a true indicator, with no cooldown in between, the clock
    not running backwards. *)
Theorem aborted_response_rearms (w : world) (self : defender) (event : fs_event) :
  response_invoked (snd (on_modified w self event)) = true ->
  returned (snd (on_modified w self event)) = false ->
  last_alert (fst (on_modified w self event)) = last_alert self
  /\ alert_threshold self <= suspicion_score (fst (on_modified w self event))
  /\ forall w' event' t' indicators',
       ignored self event' = false ->
       _check_suspicious_activity w'
         (recorded w' (fst (on_modified w self event))) (src_path event')
       = (t', Ok indicators') ->
       any (values indicators') = true ->
       now_alert w <= now_alert w' ->
       response_invoked
         (snd (on_modified w' (fst (on_modified w self event)) event')) = true.
Proof.
  intros Hinv Hret.
  destruct (on_modified_handled w self event)
    as [Hig | t e Hig Hc | t ind Hig Hc Hany | t ind Hig Hc Hany Hf
        | t ind t' e Hig Hc Hany Hf Ht | t ind t' rep Hig Hc Hany Hf Ht];
    try (simpl in Hret; discriminate).
  - exfalso. unfold response_invoked, trace_of in Hinv. simpl in Hinv.
    rewrite (check_trace_quiet _ _ _ _ _ Hc) in Hinv. discriminate.
  - clear Hinv Hret. cbn [fst].
    pose proof Hf as Hcond. apply firing_condition_raised in Hcond.
    destruct Hcond as [Hthr Hcool].
    split; [reflexivity|]. split; [exact Hthr|].
    intros w' event' t1 ind1 Hig1 Hc1 Hany1 Hclock.
    apply (handled_invoked _ _ _ _ (on_modified_handled _ _ _)).
    split; [rewrite <- Hig1; apply ignored_same_root; reflexivity|].
    exists t1, ind1. split; [exact Hc1|]. split; [exact Hany1|].
    apply firing_condition_raised. cbn [alert_threshold last_alert cooldown_period
      suspicion_score raised recorded set_suspicion_score set_file_operations].
    pose proof (score_increase_nonneg ind1).
    split; [lia|].
    destruct Hcool as [Hnone|[t0 [Hsome Hgap]]]; [left; exact Hnone|].
    right. exists t0. split; [exact Hsome|lia].
Qed.

(** The quarantine directory cannot be made: two events in a row enter the
    response sequence. *)
Lemma aborted_response_rearms_witness :
  response_invoked (snd (on_modified quarantine_denied after_four locked_file)) = true
  /\ returned (snd (on_modified quarantine_denied after_four locked_file)) = false
  /\ last_alert (fst (on_modified quarantine_denied after_four locked_file))
     = last_alert after_four
  /\ alert_threshold after_four
     <= suspicion_score (fst (on_modified quarantine_denied after_four locked_file)).
Proof.
  assert (Hinv : response_invoked
                   (snd (on_modified quarantine_denied after_four locked_file)) = true)
    by (vm_compute; reflexivity).
  assert (Hret : returned
                   (snd (on_modified quarantine_denied after_four locked_file)) = false)
    by (vm_compute; reflexivity).
  destruct (aborted_response_rearms quarantine_denied after_four locked_file Hinv Hret)
    as [H1 [H2 _]].
  split; [exact Hinv|]. split; [exact Hret|]. split; [exact H1|exact H2].
Defined.

(** ** Process termination *)

Lemma bind_assoc {A B C} (m : M A) (k : A -> M B) (k' : B -> M C) :
  bind (bind m k) k' = bind m (fun a => bind (k a) k').
Proof.
  destruct m as [t [a|e]]; simpl; [|reflexivity].
  destruct (k a) as [t1 [b|e]]; simpl; [|reflexivity].
  destruct (k' b) as [t2 r]. rewrite app_assoc. reflexivity.
Qed.

(** The condition is evaluated without a trace, and what it raises is
    never one of the two classes the loop catches. *)
Lemma is_suspicious_shape (str_lower : string -> string) (self : defender)
    (info : proc_info) :
  exists v,
    is_suspicious_process_by str_lower self info = ([], v)
    /\ forall e, v = Raise e -> process_gone (exn_class_of e) = false.
Proof.
  unfold is_suspicious_process_by, gt_field, lower_field_by.
  destruct (cpu_percent info) as [cpu|];
    [|eexists; split; [reflexivity|intros e H; injection H as <-; reflexivity]].
  rewrite bind_lift_Ok.
  destruct (Qgtb cpu 70).
  - rewrite bind_ret. destruct (name info) as [nm|];
      [|eexists; split; [reflexivity|intros e H; injection H as <-; reflexivity]].
    rewrite bind_lift_Ok. destruct (contains "system" (str_lower nm));
      [eexists; split; [reflexivity|discriminate]|].
    destruct (exe info) as [[|c path]|]; eexists; (split; [reflexivity|discriminate]).
  - destruct (memory_percent info) as [mem|];
      [|eexists; split; [reflexivity|intros e H; injection H as <-; reflexivity]].
    rewrite bind_lift_Ok. destruct (Qgtb mem 30);
      [|eexists; split; [reflexivity|discriminate]].
    destruct (name info) as [nm|];
      [|eexists; split; [reflexivity|intros e H; injection H as <-; reflexivity]].
    rewrite bind_lift_Ok. destruct (contains "system" (str_lower nm));
      [eexists; split; [reflexivity|discriminate]|].
    destruct (exe info) as [[|c path]|]; eexists; (split; [reflexivity|discriminate]).
Qed.

(** One turn of the loop, by what the condition and the kill give. *)
Lemma terminate_loop_cons (str_lower : string -> string) (w : world)
    (self : defender) (info : proc_info)
    (rest : list proc_info) (acc : list (option string)) :
  terminate_loop_by str_lower w self (info :: rest) acc
  = match value_of (is_suspicious_process_by str_lower self info) with
    | Ok true =>
        match kill w (pid info) with
        | Ok _ =>
            bind (call (Kill (pid info)) (Ok tt))
              (fun _ => terminate_loop_by str_lower w self rest (acc ++ [name info]))
        | Raise e =>
            if process_gone (exn_class_of e)
            then bind (call (Kill (pid info)) (Ok tt))
                   (fun _ => terminate_loop_by str_lower w self rest acc)
            else call (Kill (pid info)) (Raise e)
        end
    | Ok false => terminate_loop_by str_lower w self rest acc
    | Raise e => raise e
    end.
Proof.
  cbn [terminate_loop_by].
  destruct (is_suspicious_shape str_lower self info) as [v [-> Hv]].
  cbn [value_of snd].
  destruct v as [[|]|e].
  - destruct (kill w (pid info)) as [[]|e]; simpl.
    + destruct (terminate_loop_by str_lower w self rest (acc ++ [name info]));
        reflexivity.
    + destruct (process_gone (exn_class_of e)); simpl; [|reflexivity].
      destruct (terminate_loop_by str_lower w self rest acc); reflexivity.
  - simpl. destruct (terminate_loop_by str_lower w self rest acc); reflexivity.
  - simpl. rewrite (Hv e eq_refl). reflexivity.
Qed.

Lemma is_suspicious_true (str_lower : string -> string) (self : defender)
    (info : proc_info) :
  value_of (is_suspicious_process_by str_lower self info) = Ok true ->
  exists cpu nm path,
    cpu_percent info = Some cpu /\ name info = Some nm /\ exe info = Some path
    /\ contains "system" (str_lower nm) = false
    /\ path <> EmptyString
    /\ contains (str_lower (watch_path self)) (str_lower path) = true
    /\ (Qgtb cpu 70 = true
        \/ exists mem, memory_percent info = Some mem /\ Qgtb mem 30 = true).
Proof.
  unfold is_suspicious_process_by, gt_field, lower_field_by.
  destruct (cpu_percent info) as [cpu|]; [|discriminate].
  rewrite bind_lift_Ok.
  destruct (Qgtb cpu 70) eqn:Hcpu.
  - rewrite bind_ret. destruct (name info) as [nm|]; [|discriminate].
    rewrite bind_lift_Ok. destruct (contains "system" (str_lower nm)) eqn:Hsys;
      [discriminate|].
    destruct (exe info) as [[|c path]|]; try discriminate.
    intros H. injection H as H. exists cpu, nm, (String c path).
    repeat split; auto. discriminate.
  - destruct (memory_percent info) as [mem|]; [|discriminate].
    rewrite bind_lift_Ok. destruct (Qgtb mem 30) eqn:Hmem; [|discriminate].
    destruct (name info) as [nm|]; [|discriminate].
    rewrite bind_lift_Ok. destruct (contains "system" (str_lower nm)) eqn:Hsys;
      [discriminate|].
    destruct (exe info) as [[|c path]|]; try discriminate.
    intros H. injection H as H. exists cpu, nm, (String c path).
    repeat split; auto; [discriminate|]. right. exists mem. auto.
Qed.

Lemma terminate_loop_kills (str_lower : string -> string) (w : world)
    (self : defender) (procs : list proc_info)
    (acc : list (option string)) (p : Z) :
  In (Call (Kill p)) (trace_of (terminate_loop_by str_lower w self procs acc)) ->
  exists info, In info procs /\ pid info = p
               /\ value_of (is_suspicious_process_by str_lower self info) = Ok true.
Proof.
  revert acc. induction procs as [|info rest IH]; intros acc; [intros []|].
  rewrite terminate_loop_cons.
  destruct (value_of (is_suspicious_process_by str_lower self info)) as [[|]|e] eqn:Hv.
  - assert (Hhere : forall k : unit -> M (list (option string)),
               (forall a, In (Call (Kill p)) (trace_of (k a)) ->
                          exists info0, In info0 rest /\ pid info0 = p
                            /\ value_of (is_suspicious_process_by str_lower self info0)
                               = Ok true) ->
               In (Call (Kill p))
                  (trace_of (bind (call (Kill (pid info)) (Ok tt)) k)) ->
               exists info0, In info0 (info :: rest) /\ pid info0 = p
                 /\ value_of (is_suspicious_process_by str_lower self info0) = Ok true).
    { intros k Hk Hin. rewrite trace_bind in Hin. simpl in Hin.
      destruct Hin as [Heq|Hin].
      - injection Heq as <-. exists info. split; [left; reflexivity|auto].
      - destruct (Hk tt Hin) as [i0 [Hi0 Hrest]]. exists i0.
        split; [right; exact Hi0|exact Hrest]. }
    destruct (kill w (pid info)) as [[]|e].
    + apply Hhere. intros _. apply IH.
    + destruct (process_gone (exn_class_of e)).
      * apply Hhere. intros _. apply IH.
      * simpl. intros [Heq|[]]. injection Heq as <-.
        exists info. split; [left; reflexivity|auto].
  - intros Hin. destruct (IH acc Hin) as [i0 [Hi0 Hrest]]. exists i0.
    split; [right; exact Hi0|exact Hrest].
  - intros [].
Qed.

(** X10: the only processes the termination step tries to kill are rows of
    the process table whose executable path is known, not empty and holds
    the watched path once both are lowered, whose lowered name does not
    hold "system", and whose CPU share is over 70 or memory share over 30;
    and this whatever [str.lower] does to a character, the statement being
    for every lowering. *)
Theorem kills_only_selected_processes (str_lower : string -> string)
    (w : world) (self : defender) (p : Z) :
  In (Call (Kill p)) (trace_of (terminate_suspicious_processes_by str_lower w self)) ->
  exists info cpu nm path,
    In info (process_iter w) /\ pid info = p
    /\ cpu_percent info = Some cpu /\ name info = Some nm /\ exe info = Some path
    /\ contains "system" (str_lower nm) = false
    /\ path <> EmptyString
    /\ contains (str_lower (watch_path self)) (str_lower path) = true
    /\ (Qgtb cpu 70 = true
        \/ exists mem, memory_percent info = Some mem /\ Qgtb mem 30 = true).
Proof.
  unfold terminate_suspicious_processes_by. rewrite trace_bind. intros Hin.
  apply in_app_or in Hin. destruct Hin as [Hin|Hin].
  - destruct (terminate_loop_kills _ _ _ _ _ _ Hin) as [info [Hi [Hp Hv]]].
    destruct (is_suspicious_true _ _ _ Hv) as [cpu [nm [path H]]].
    exists info, cpu, nm, path. tauto.
  - destruct (value_of (terminate_loop_by str_lower w self (process_iter w) []));
      destruct Hin.
Qed.

(** The busy program under the watched directory is the one killed. *)
Lemma kills_only_selected_processes_witness :
  In (Call (Kill 4242))
     (trace_of (_terminate_suspicious_processes
                  (with_processes (calm 0 []) [proc_service; proc_miner]
                     (fun _ => Ok tt))
                  alarmed))
  /\ exists info,
       In info [proc_service; proc_miner] /\ pid info = 4242
       /\ exe info = Some "/w/locker.exe".
Proof.
  assert (Hin : In (Call (Kill 4242))
                   (trace_of (_terminate_suspicious_processes
                                (with_processes (calm 0 []) [proc_service; proc_miner]
                                   (fun _ => Ok tt))
                                alarmed)))
    by (vm_compute; left; reflexivity).
  split; [exact Hin|].
  destruct (kills_only_selected_processes lower _ _ _ Hin)
    as [info [cpu [nm [path [Hi [Hp [_ [_ [Hexe _]]]]]]]]].
  exists info. split; [exact Hi|]. split; [exact Hp|].
  destruct Hi as [<-|[<-|[]]]; [discriminate Hp|reflexivity].
Defined.

Lemma is_suspicious_scannable (str_lower : string -> string) (self : defender)
    (info : proc_info) :
  cpu_percent info <> None -> memory_percent info <> None -> name info <> None ->
  value_of (is_suspicious_process_by str_lower self info)
  = Ok (row_selected str_lower self info).
Proof.
  unfold is_suspicious_process_by, row_selected, selected, gt_field, lower_field_by.
  destruct (cpu_percent info) as [cpu|]; [|congruence].
  destruct (memory_percent info) as [mem|]; [|congruence].
  destruct (name info) as [nm|]; [|congruence].
  intros _ _ _. rewrite bind_lift_Ok.
  destruct (Qgtb cpu 70); [rewrite bind_ret|rewrite bind_lift_Ok; destruct (Qgtb mem 30)];
    cbn [orb andb]; try reflexivity;
    rewrite bind_lift_Ok;
    destruct (contains "system" (str_lower nm)); cbn [negb andb]; try reflexivity;
    destruct (exe info) as [[|c path]|]; reflexivity.
Qed.

Lemma terminate_loop_count (str_lower : string -> string) (w : world)
    (self : defender) (procs : list proc_info) (acc : list (option string)) :
  Forall (scannable w) procs ->
  exists acc',
    value_of (terminate_loop_by str_lower w self procs acc) = Ok acc'
    /\ List.length acc'
       = (List.length acc
          + List.length (terminated_rows str_lower w self procs))%nat.
Proof.
  revert acc. induction procs as [|info rest IH]; intros acc Hall.
  - exists acc. split; [reflexivity|simpl; lia].
  - inversion Hall as [|? ? [Hcpu [Hmem [Hname Hkill]]] Hrest]; subst.
    rewrite terminate_loop_cons,
      (is_suspicious_scannable str_lower self info Hcpu Hmem Hname).
    unfold terminated_rows. cbn [filter]. fold (terminated_rows str_lower w self rest).
    destruct (row_selected str_lower self info); cbn [andb].
    + destruct (kill w (pid info)) as [[]|e]; cbn [succeeded].
      * rewrite value_bind. cbn [value_of snd call].
        destruct (IH (acc ++ [name info]) Hrest) as [acc' [Hv Hlen]].
        exists acc'. split; [exact Hv|].
        rewrite Hlen, length_app. simpl. lia.
      * rewrite Hkill, value_bind. cbn [value_of snd call].
        destruct (IH acc Hrest) as [acc' [Hv Hlen]].
        exists acc'. split; [exact Hv|exact Hlen].
    + destruct (IH acc Hrest) as [acc' [Hv Hlen]].
      exists acc'. split; [exact Hv|exact Hlen].
Qed.

(** X11: when every row of the process table has its CPU share, memory
    share and name, and no kill fails otherwise than with NoSuchProcess or
    AccessDenied, the termination step does not raise and reports the
    number of rows that were selected and killed without error: a process
    that is gone or protected is passed over and not counted.  The
    selection is the one of the code for every lowering of names and
    paths. *)
Theorem terminate_reports_successful_kills (str_lower : string -> string)
    (w : world) (self : defender) :
  Forall (scannable w) (process_iter w) ->
  value_of (terminate_suspicious_processes_by str_lower w self)
  = Ok ("Terminated "
        ++ str_of_nat
             (List.length (terminated_rows str_lower w self (process_iter w)))
        ++ " processes")%string.
Proof.
  intros Hall. unfold terminate_suspicious_processes_by.
  destruct (terminate_loop_count str_lower w self (process_iter w) [] Hall)
    as [acc [Hv Hlen]].
  rewrite value_bind, Hv. cbn [value_of snd ret]. rewrite Hlen. reflexivity.
Qed.

(** The busy program has exited before the kill: nothing is counted. *)
Lemma terminate_reports_successful_kills_witness :
  Forall (scannable (with_processes (calm 0 []) [proc_service; proc_miner] gone_4242))
    [proc_service; proc_miner]
  /\ value_of (_terminate_suspicious_processes
                 (with_processes (calm 0 []) [proc_service; proc_miner] gone_4242)
                 alarmed)
     = Ok "Terminated 0 processes".
Proof.
  assert (Hall : Forall (scannable (with_processes (calm 0 [])
                                      [proc_service; proc_miner] gone_4242))
                   [proc_service; proc_miner]).
  { repeat constructor; discriminate. }
  split; [exact Hall|].
  exact (terminate_reports_successful_kills lower
           (with_processes (calm 0 []) [proc_service; proc_miner] gone_4242)
           alarmed Hall).
Defined.

Lemma bind_ext {A B} (m : M A) (k k' : A -> M B) :
  (forall a, k a = k' a) -> bind m k = bind m k'.
Proof. intros H. destruct m as [t [a|e]]; simpl; [rewrite H|]; reflexivity. Qed.

Lemma terminate_loop_app (str_lower : string -> string) (w : world)
    (self : defender) (pre rest : list proc_info) (acc : list (option string)) :
  terminate_loop_by str_lower w self (pre ++ rest) acc
  = bind (terminate_loop_by str_lower w self pre acc)
      (fun acc' => terminate_loop_by str_lower w self rest acc').
Proof.
  revert acc. induction pre as [|info pre IH]; intros acc.
  - simpl. destruct (terminate_loop_by str_lower w self rest acc); reflexivity.
  - cbn [app terminate_loop_by]. rewrite bind_assoc. apply bind_ext. intros acc'.
    apply IH.
Qed.

(** X12: a row whose CPU share is missing ([None], as an attribute the
    process denies) ends the termination step with a TypeError: the rows
    after it are not looked at, and what the rows before it caused is all
    the step has done. *)
Theorem terminate_stops_at_missing_cpu (w : world) (self : defender)
    (pre rest : list proc_info) (info : proc_info) :
  process_iter w = pre ++ info :: rest ->
  returned (terminate_loop w self pre []) = true ->
  cpu_percent info = None ->
  (exists e, value_of (_terminate_suspicious_processes w self) = Raise e
             /\ exn_class_of e = TypeError)
  /\ trace_of (_terminate_suspicious_processes w self)
     = trace_of (terminate_loop w self pre []).
Proof.
  intros Hprocs Hpre Hcpu.
  unfold _terminate_suspicious_processes, terminate_suspicious_processes_by,
    terminate_loop in *.
  assert (Hraise : forall acc,
             terminate_loop_by lower w self (info :: rest) acc
             = raise (Exn TypeError
                        "'>' not supported between instances of 'NoneType' and 'int'")).
  { intros acc. rewrite terminate_loop_cons.
    unfold is_suspicious_process_by, gt_field. rewrite Hcpu. reflexivity. }
  rewrite Hprocs, terminate_loop_app.
  unfold returned in Hpre.
  destruct (terminate_loop_by lower w self pre []) as [t [acc|e]]; [|discriminate].
  cbn [bind]. rewrite Hraise. cbn [raise bind trace_of value_of fst snd].
  rewrite app_nil_r. split; [|reflexivity].
  eexists. split; reflexivity.
Qed.

(** The hidden process comes first: the busy program after it survives. *)
Lemma terminate_stops_at_missing_cpu_witness :
  process_iter (with_processes (calm 0 []) [proc_hidden; proc_miner] (fun _ => Ok tt))
  = [] ++ proc_hidden :: [proc_miner]
  /\ cpu_percent proc_hidden = None
  /\ trace_of (_terminate_suspicious_processes
                 (with_processes (calm 0 []) [proc_hidden; proc_miner]
                    (fun _ => Ok tt))
                 alarmed) = [].
Proof.
  split; [reflexivity|]. split; [reflexivity|].
  exact (proj2 (terminate_stops_at_missing_cpu
                  (with_processes (calm 0 []) [proc_hidden; proc_miner]
                     (fun _ => Ok tt))
                  alarmed [] [proc_miner] proc_hidden eq_refl eq_refl eq_refl)).
Defined.

(** ** Quarantine *)

Lemma detect_encryption_value (w : world) (filepath : string) :
  value_of (_detect_encryption w filepath)
  = Ok (match file_read w filepath with
        | Ok [] => true
        | _ => false
        end).
Proof.
  pose proof (detect_encryption_true_iff w filepath) as Hiff.
  destruct (detect_encryption_returns w filepath) as [t [b Hd]].
  rewrite Hd in *. cbn [value_of snd] in *.
  destruct (file_read w filepath) as [[|c rest]|e]; destruct b;
    try reflexivity;
    try (destruct Hiff as [H _]; specialize (H eq_refl); discriminate);
    try (destruct Hiff as [_ H]; specialize (H eq_refl); discriminate).
Qed.

Lemma detect_encryption_no_call (w : world) (filepath : string) (c : syscall) :
  ~ In (Call c) (trace_of (_detect_encryption w filepath)).
Proof.
  destruct (file_read w filepath) as [[|b rest]|e] eqn:Hread.
  - unfold _detect_encryption, read_window. rewrite Hread. simpl. intros [].
  - destruct (detect_encryption_nonempty w filepath (b :: rest) Hread) as [e [-> _]];
      [discriminate|].
    simpl. intros [H|[]]. discriminate.
  - unfold _detect_encryption, read_window. rewrite Hread, bind_lift_Raise.
    simpl. intros [H|[]]. discriminate.
Qed.

Lemma quarantine_loop_value (w : world) (self : defender) (items : list string)
    (n : nat) :
  value_of (quarantine_loop w self items n)
  = Ok (n + List.length (quarantined_items w self items))%nat.
Proof.
  revert n. induction items as [|item rest IH]; intros n.
  - simpl. f_equal. lia.
  - cbn [quarantine_loop]. unfold quarantined_items. cbn [filter].
    fold (quarantined_items w self rest).
    rewrite value_bind.
    destruct (isfile w (os_path_join w (watch_path self) item)); cbn [andb].
    + rewrite detect_encryption_value.
      destruct (file_read w (os_path_join w (watch_path self) item)) as [[|b l]|e];
        cbn [andb]; rewrite value_bind.
      * destruct (move w (os_path_join w (watch_path self) item)) as [[]|e];
          cbn [succeeded]; simpl; rewrite IH; cbn [List.length]; f_equal; lia.
      * simpl. apply IH.
      * simpl. apply IH.
    + cbn [value_of snd ret]. rewrite value_bind. simpl. apply IH.
Qed.

Lemma quarantine_loop_moves (w : world) (self : defender) (items : list string)
    (n : nat) (src item0 : string) :
  In (Call (Move src item0)) (trace_of (quarantine_loop w self items n)) ->
  In item0 items
  /\ src = os_path_join w (watch_path self) item0
  /\ isfile w src = true
  /\ file_read w src = Ok [].
Proof.
  revert n. induction items as [|item rest IH]; intros n; [intros []|].
  cbn [quarantine_loop]. rewrite trace_bind. intros Hin.
  apply in_app_or in Hin. destruct Hin as [Hin|Hin].
  - exfalso. destruct (isfile w (os_path_join w (watch_path self) item)).
    + exact (detect_encryption_no_call _ _ _ Hin).
    + destruct Hin.
  - assert (Hfirst :
      value_of (if isfile w (os_path_join w (watch_path self) item)
                then _detect_encryption w (os_path_join w (watch_path self) item)
                else ret false)
      = Ok (isfile w (os_path_join w (watch_path self) item)
            && match file_read w (os_path_join w (watch_path self) item) with
               | Ok [] => true
               | _ => false
               end)).
    { destruct (isfile w (os_path_join w (watch_path self) item));
        [apply detect_encryption_value|reflexivity]. }
    rewrite Hfirst in Hin. rewrite trace_bind in Hin.
    apply in_app_or in Hin. destruct Hin as [Hin|Hin].
    + destruct (isfile w (os_path_join w (watch_path self) item)) eqn:Hfile;
        [|destruct Hin].
      destruct (file_read w (os_path_join w (watch_path self) item))
        as [[|b l]|e] eqn:Hread; try destruct Hin.
      cbn [andb] in Hin.
      assert (Hmove : Call (Move src item0)
                      = Call (Move (os_path_join w (watch_path self) item) item)).
      { destruct (move w (os_path_join w (watch_path self) item)) as [[]|e];
          simpl in Hin.
        - destruct Hin as [H|[]]. symmetry. exact H.
        - destruct Hin as [H|[H|[]]]; [symmetry; exact H|discriminate]. }
      injection Hmove as -> ->.
      split; [left; reflexivity|]. split; [reflexivity|]. split; assumption.
    + match type of Hin with
      | In _ (match ?v with _ => _ end) => destruct v as [n'|e]; [|destruct Hin]
      end.
      destruct (IH n' Hin) as [H1 H2]. split; [right; exact H1|exact H2].
Qed.

(** X13: the quarantine step moves a file only if it was listed in the
    watched directory, is a regular file there, and opens and holds no
    byte; no file with content is ever moved. *)
Theorem quarantine_moves_only_empty_files (w : world) (self : defender)
    (src item : string) :
  In (Call (Move src item)) (trace_of (_quarantine_suspicious_files w self)) ->
  (exists items, listdir w (watch_path self) = Ok items /\ In item items)
  /\ src = os_path_join w (watch_path self) item
  /\ isfile w src = true
  /\ file_read w src = Ok [].
Proof.
  unfold _quarantine_suspicious_files. rewrite trace_bind. intros Hin.
  apply in_app_or in Hin. destruct Hin as [Hin|Hin].
  { simpl in Hin. destruct Hin as [H|[]]. discriminate. }
  cbn [call value_of snd] in Hin.
  destruct (makedirs w (os_path_join w (watch_path self) "QUARANTINE")) as [[]|e];
    [|destruct Hin].
  rewrite trace_bind in Hin. apply in_app_or in Hin. destruct Hin as [Hin|Hin].
  { simpl in Hin. destruct Hin as [H|[]]. discriminate. }
  cbn [call value_of snd] in Hin.
  destruct (listdir w (watch_path self)) as [items|e]; [|destruct Hin].
  rewrite trace_bind in Hin. apply in_app_or in Hin. destruct Hin as [Hin|Hin].
  - destruct (quarantine_loop_moves _ _ _ _ _ _ Hin) as [H1 H2].
    split; [exists items; auto|exact H2].
  - destruct (value_of (quarantine_loop w self items 0)); destruct Hin.
Qed.

(** Of the empty file and the document, the empty file is moved. *)
Lemma quarantine_moves_only_empty_files_witness :
  In (Call (Move "/w/empty.txt" "empty.txt"))
     (trace_of (_quarantine_suspicious_files office alarmed))
  /\ file_read office "/w/empty.txt" = Ok []
  /\ ~ In (Call (Move "/w/report.docx" "report.docx"))
          (trace_of (_quarantine_suspicious_files office alarmed)).
Proof.
  assert (Hin : In (Call (Move "/w/empty.txt" "empty.txt"))
                   (trace_of (_quarantine_suspicious_files office alarmed)))
    by (vm_compute; right; right; left; reflexivity).
  split; [exact Hin|]. split.
  - exact (proj2 (proj2 (proj2 (quarantine_moves_only_empty_files _ _ _ _ Hin)))).
  - intros H.
    pose proof (proj2 (proj2 (proj2 (quarantine_moves_only_empty_files _ _ _ _ H)))) as E.
    vm_compute in E. discriminate.
Defined.

(** X14: the quarantine step raises exactly when the quarantine directory
    cannot be made or the watched directory cannot be listed; otherwise it
    returns, whatever the moves do, and reports the number of files that
    were regular, empty and moved without error. *)
Theorem quarantine_counts_moved_files (w : world) (self : defender) :
  (forall items,
     makedirs w (os_path_join w (watch_path self) "QUARANTINE") = Ok tt ->
     listdir w (watch_path self) = Ok items ->
     value_of (_quarantine_suspicious_files w self)
     = Ok ("Quarantined "
           ++ str_of_nat (List.length (quarantined_items w self items))
           ++ " files")%string)
  /\ (forall e,
        value_of (_quarantine_suspicious_files w self) = Raise e <->
        makedirs w (os_path_join w (watch_path self) "QUARANTINE") = Raise e
        \/ (makedirs w (os_path_join w (watch_path self) "QUARANTINE") = Ok tt
            /\ listdir w (watch_path self) = Raise e)).
Proof.
  unfold _quarantine_suspicious_files. rewrite value_bind. cbn [call value_of snd].
  split.
  - intros items -> Hl. rewrite value_bind. cbn [call value_of snd]. rewrite Hl.
    rewrite value_bind, quarantine_loop_value. reflexivity.
  - intros e.
    destruct (makedirs w (os_path_join w (watch_path self) "QUARANTINE")) as [[]|e0].
    + rewrite value_bind. cbn [call value_of snd].
      destruct (listdir w (watch_path self)) as [items|e1].
      * rewrite value_bind, quarantine_loop_value. cbn [value_of snd ret].
        split; [discriminate|]. intros [H|[_ H]]; discriminate.
      * split; [intros H; injection H as ->; right; split; reflexivity|].
        intros [H|[_ H]]; [discriminate|injection H as ->; reflexivity].
    + split; [intros H; injection H as ->; left; reflexivity|].
      intros [H|[H _]]; [injection H as ->; reflexivity|discriminate].
Qed.

(** In the office one file is counted. *)
Lemma quarantine_counts_moved_files_witness :
  makedirs office (os_path_join office (watch_path alarmed) "QUARANTINE") = Ok tt
  /\ value_of (_quarantine_suspicious_files office alarmed)
     = Ok "Quarantined 1 files".
Proof.
  split; [reflexivity|].
  exact (proj1 (quarantine_counts_moved_files office alarmed)
           ["empty.txt"; "report.docx"; "QUARANTINE"] eq_refl eq_refl).
Defined.

(** ** The response as a whole *)

Lemma isolate_network_value (w : world) :
  value_of (_isolate_network w)
  = Ok (if succeeded (os_system w (netsh_disable "Wi-Fi"))
           && succeeded (os_system w (netsh_disable "Ethernet"))
        then "Network disabled" else "Network isolation failed").
Proof.
  unfold _isolate_network, try_except, bind, call, value_of.
  destruct (os_system w (netsh_disable "Wi-Fi")); [|reflexivity].
  destruct (os_system w (netsh_disable "Ethernet")); reflexivity.
Qed.

Lemma lock_system_value (w : world) :
  value_of (_lock_system w)
  = Ok (if succeeded (os_system w lock_command)
        then "System locked" else "System lock failed").
Proof.
  unfold _lock_system, try_except, bind, call, value_of.
  destruct (os_system w lock_command); reflexivity.
Qed.

Lemma notify_admin_value (w : world) (self : defender) :
  value_of (_notify_admin w self)
  = Ok (match admin_email self with
        | None => "No admin email configured"
        | Some EmptyString => "No admin email configured"
        | Some rcpt => if succeeded (compose_message w rcpt)
                          && succeeded (smtp_send w rcpt)
                       then "Admin notified" else "Notification failed"
        end).
Proof.
  unfold _notify_admin, try_except, bind, call, lift, value_of.
  destruct (admin_email self) as [[|c rcpt]|]; try reflexivity.
  destruct (compose_message w (String c rcpt)); [|reflexivity].
  destruct (smtp_send w (String c rcpt)); reflexivity.
Qed.

(** X15: the response sequence raises exactly when process termination
    raises, or process termination returns and the quarantine raises, and
    then with that exception; otherwise it returns five entries, in the
    order termination, quarantine, network, lock, notification, the last
    three being the outcome texts of their steps, failed or not. *)
Theorem response_report_or_exception (w : world) (self : defender) :
  (forall e,
     value_of (_take_defensive_actions w self) = Raise e <->
     value_of (_terminate_suspicious_processes w self) = Raise e
     \/ (returned (_terminate_suspicious_processes w self) = true
         /\ value_of (_quarantine_suspicious_files w self) = Raise e))
  /\ (forall report,
        value_of (_take_defensive_actions w self) = Ok report <->
        exists a1 a2,
          value_of (_terminate_suspicious_processes w self) = Ok a1
          /\ value_of (_quarantine_suspicious_files w self) = Ok a2
          /\ report
             = [a1; a2;
                if succeeded (os_system w (netsh_disable "Wi-Fi"))
                   && succeeded (os_system w (netsh_disable "Ethernet"))
                then "Network disabled" else "Network isolation failed";
                if succeeded (os_system w lock_command)
                then "System locked" else "System lock failed";
                match admin_email self with
                | None => "No admin email configured"
                | Some EmptyString => "No admin email configured"
                | Some rcpt => if succeeded (compose_message w rcpt)
                                  && succeeded (smtp_send w rcpt)
                               then "Admin notified" else "Notification failed"
                end]).
Proof.
  assert (Hval :
    value_of (_take_defensive_actions w self)
    = match value_of (_terminate_suspicious_processes w self) with
      | Raise e => Raise e
      | Ok a1 =>
          match value_of (_quarantine_suspicious_files w self) with
          | Raise e => Raise e
          | Ok a2 =>
              Ok [a1; a2;
                  if succeeded (os_system w (netsh_disable "Wi-Fi"))
                     && succeeded (os_system w (netsh_disable "Ethernet"))
                  then "Network disabled" else "Network isolation failed";
                  if succeeded (os_system w lock_command)
                  then "System locked" else "System lock failed";
                  match admin_email self with
                  | None => "No admin email configured"
                  | Some EmptyString => "No admin email configured"
                  | Some rcpt => if succeeded (compose_message w rcpt)
                                    && succeeded (smtp_send w rcpt)
                                 then "Admin notified" else "Notification failed"
                  end]
          end
      end).
  { unfold _take_defensive_actions. rewrite value_bind. cbn [emit value_of snd].
    rewrite value_bind.
    destruct (value_of (_terminate_suspicious_processes w self)) as [a1|e];
      [|reflexivity].
    rewrite value_bind.
    destruct (value_of (_quarantine_suspicious_files w self)) as [a2|e];
      [|reflexivity].
    rewrite value_bind, isolate_network_value.
    rewrite value_bind, lock_system_value.
    rewrite value_bind, notify_admin_value.
    rewrite value_bind. reflexivity. }
  rewrite Hval. unfold returned. split.
  - intros e.
    destruct (value_of (_terminate_suspicious_processes w self)) as [a1|e1].
    + destruct (value_of (_quarantine_suspicious_files w self)) as [a2|e2].
      * split; [discriminate|]. intros [H|[_ H]]; discriminate.
      * split; [intros H; injection H as ->; right; split; reflexivity|].
        intros [H|[_ H]]; [discriminate|injection H as ->; reflexivity].
    + split; [intros H; injection H as ->; left; reflexivity|].
      intros [H|[H _]]; [injection H as ->; reflexivity|discriminate].
  - intros report.
    destruct (value_of (_terminate_suspicious_processes w self)) as [a1|e1].
    + destruct (value_of (_quarantine_suspicious_files w self)) as [a2|e2].
      * split.
        -- intros H. injection H as <-. exists a1, a2. auto.
        -- intros [b1 [b2 [H1 [H2 ->]]]]. injection H1 as <-. injection H2 as <-.
           reflexivity.
      * split; [discriminate|]. intros [b1 [b2 [_ [H _]]]]. discriminate.
    + split; [discriminate|]. intros [b1 [b2 [H _]]]. discriminate.
Qed.

Lemma netsh_commands_differ : netsh_disable "Ethernet" <> netsh_disable "Wi-Fi".
Proof. vm_compute. discriminate. Qed.

(** X16: network isolation never raises.  It reports "Network disabled"
    exactly when neither call of [os.system] raised, whatever exit status
    the commands gave, and "Network isolation failed" otherwise; and the
    Ethernet command is run exactly when the Wi-Fi call returned. *)
Theorem isolate_network_outcome (w : world) :
  (value_of (_isolate_network w) = Ok "Network disabled"
   \/ value_of (_isolate_network w) = Ok "Network isolation failed")
  /\ (value_of (_isolate_network w) = Ok "Network disabled" <->
      succeeded (os_system w (netsh_disable "Wi-Fi")) = true
      /\ succeeded (os_system w (netsh_disable "Ethernet")) = true)
  /\ (In (Call (OsSystem (netsh_disable "Ethernet"))) (trace_of (_isolate_network w))
      <-> succeeded (os_system w (netsh_disable "Wi-Fi")) = true).
Proof.
  rewrite isolate_network_value.
  unfold _isolate_network, try_except, bind, call, trace_of.
  pose proof netsh_commands_differ as Hdiff.
  destruct (os_system w (netsh_disable "Wi-Fi")) as [s1|e1];
    [destruct (os_system w (netsh_disable "Ethernet")) as [s2|e2]|];
    cbn [succeeded andb fst app ret emit].
  - split; [left; reflexivity|]. split; [tauto|].
    split; [reflexivity|]. intros _. right. left. reflexivity.
  - split; [right; reflexivity|]. split; [split; [discriminate|intros [_ H]; discriminate]|].
    split; [reflexivity|]. intros _. right. left. reflexivity.
  - split; [right; reflexivity|]. split; [split; [discriminate|intros [H _]; discriminate]|].
    split; [|discriminate].
    intros [H|[H|[]]]; [|discriminate]. exfalso. apply Hdiff. congruence.
Qed.

(** X17: the notification step never raises.  It turns to the mail server
    exactly when an administrator address is configured and not empty and
    the message for it could be composed, to that address and at most once;
    it reports "Admin notified" exactly when the message was composed and
    the sending succeeded. *)
Theorem notify_admin_outcome (w : world) (self : defender) :
  (forall rcpt,
     In (Call (SmtpSend rcpt)) (trace_of (_notify_admin w self)) <->
     admin_email self = Some rcpt /\ rcpt <> EmptyString
     /\ succeeded (compose_message w rcpt) = true)
  /\ (List.length (filter (fun ef => match ef with Call _ => true | _ => false end)
                     (trace_of (_notify_admin w self))) <= 1)%nat
  /\ (exists text, value_of (_notify_admin w self) = Ok text)
  /\ (value_of (_notify_admin w self) = Ok "Admin notified" <->
      exists rcpt, admin_email self = Some rcpt /\ rcpt <> EmptyString
                   /\ compose_message w rcpt = Ok tt
                   /\ smtp_send w rcpt = Ok tt).
Proof.
  rewrite notify_admin_value.
  unfold _notify_admin, try_except, bind, call, lift, trace_of.
  destruct (admin_email self) as [[|c rcpt0]|].
  - split; [intros rcpt; split; [intros []|intros [H [Hne _]]; injection H as <-; congruence]|].
    split; [simpl; lia|]. split; [eexists; reflexivity|].
    split; [discriminate|]. intros [r [H [Hne _]]]. injection H as <-. congruence.
  - destruct (compose_message w (String c rcpt0)) as [[]|e0] eqn:Hmsg;
      cbn [succeeded fst app ret emit andb].
    + destruct (smtp_send w (String c rcpt0)) as [[]|e] eqn:Hsend;
        cbn [succeeded fst app ret emit].
      * split.
        { intros rcpt. split.
          - intros [H|[]]. injection H as <-.
            split; [reflexivity|]. split; [discriminate|].
            rewrite Hmsg. reflexivity.
          - intros [H _]. injection H as <-. left. reflexivity. }
        split; [simpl; lia|]. split; [eexists; reflexivity|].
        split; [|reflexivity]. intros _. exists (String c rcpt0).
        split; [reflexivity|]. split; [discriminate|]. split; [exact Hmsg|exact Hsend].
      * split.
        { intros rcpt. split.
          - intros [H|[H|[]]]; [|discriminate]. injection H as <-.
            split; [reflexivity|]. split; [discriminate|].
            rewrite Hmsg. reflexivity.
          - intros [H _]. injection H as <-. left. reflexivity. }
        split; [simpl; lia|]. split; [eexists; reflexivity|].
        split; [discriminate|].
        intros [r [H [_ [_ Hs]]]]. injection H as <-. congruence.
    + split.
      { intros rcpt. split.
        - intros [H|[]]. discriminate.
        - intros [H [_ Hc]]. injection H as <-. rewrite Hmsg in Hc. discriminate. }
      split; [simpl; lia|]. split; [eexists; reflexivity|].
      split; [discriminate|].
      intros [r [H [_ [Hc _]]]]. injection H as <-. congruence.
  - split; [intros rcpt; split; [intros []|intros [H _]; discriminate]|].
    split; [simpl; lia|]. split; [eexists; reflexivity|].
    split; [discriminate|]. intros [r [H _]]. discriminate.
Qed.

(** With an address of two lines the message is refused while it is
    composed: the failure is logged, the step reports it, and the mail
    server is not approached. *)
Example notification_refused_for_two_line_address :
  _notify_admin strict_headers
    (__init__ "/w" 10 5 (Some two_line_address) None)
  = ([Log ERROR
        "Notification failed: Header values may not contain linefeed or carriage return characters"],
     Ok "Notification failed").
Proof. vm_compute. reflexivity. Qed.

(** ** Start-up *)

(** X18: loading the model never raises.  The attribute [model] is set
    exactly when the model file loads, holds an isolation forest, and the
    scaler file loads too; the scaler is then set as well, to what its file
    held, so a scaler is at hand whenever a model is.  A warning is printed
    exactly when the model is not set. *)
Theorem load_ml_model_outcome (joblib_load : string -> exc pickled) :
  (forall x,
     fst (fst (_load_ml_model joblib_load)) = Some x <->
     (exists predict, x = IsolationForest predict)
     /\ joblib_load model_file = Ok x
     /\ succeeded (joblib_load scaler_file) = true)
  /\ (forall x,
        fst (fst (_load_ml_model joblib_load)) = Some x ->
        exists s, snd (fst (_load_ml_model joblib_load)) = Some s
                  /\ joblib_load scaler_file = Ok s)
  /\ (snd (_load_ml_model joblib_load) = []
      <-> fst (fst (_load_ml_model joblib_load)) <> None)
  /\ (model_of (fst (fst (_load_ml_model joblib_load)))
        (snd (fst (_load_ml_model joblib_load))) = None
      <-> fst (fst (_load_ml_model joblib_load)) = None).
Proof.
  unfold _load_ml_model.
  destruct (joblib_load model_file) as [m|e].
  - destruct (joblib_load scaler_file) as [s|e].
    + destruct m as [predict|transform|]; cbn [fst snd succeeded model_of].
      * split.
        { intros x. split.
          - intros H. injection H as <-. split; [eexists; reflexivity|auto].
          - intros [_ [H _]]. injection H as <-. reflexivity. }
        split; [intros x _; exists s; auto|].
        split; [split; [discriminate|reflexivity]|].
        split; [discriminate|discriminate].
      * split.
        { intros x. split; [discriminate|].
          intros [[predict ->] [H _]]. discriminate. }
        split; [discriminate|].
        split; [split; [discriminate|intros H; congruence]|].
        split; reflexivity.
      * split.
        { intros x. split; [discriminate|].
          intros [[predict ->] [H _]]. discriminate. }
        split; [discriminate|].
        split; [split; [discriminate|intros H; congruence]|].
        split; reflexivity.
    + cbn [fst snd succeeded model_of]. split.
      { intros x. split; [discriminate|]. intros [_ [_ H]]. discriminate. }
      split; [discriminate|].
      split; [split; [discriminate|intros H; congruence]|].
      split; reflexivity.
  - cbn [fst snd model_of]. split.
    { intros x. split; [discriminate|]. intros [_ [H _]]. discriminate. }
    split; [discriminate|].
    split; [split; [discriminate|intros H; congruence]|].
    split; reflexivity.
Qed.

Lemma get_system_features_at_logged (w : world) :
  _get_system_features_at true (psutil_sample w) = _get_system_features w.
Proof. reflexivity. Qed.

Lemma get_system_features_at_Ok (logger_set : bool) (f : list Q) :
  _get_system_features_at logger_set (Ok f) = ret (Some f).
Proof. reflexivity. Qed.

Lemma get_system_features_at_unlogged (e : exception) :
  exists e', _get_system_features_at false (Raise e) = raise e'
             /\ exn_class_of e' = AttributeError.
Proof. eexists. split; reflexivity. Qed.

Lemma get_system_features_at_logged_Raise (e : exception) :
  value_of (_get_system_features_at true (Raise e)) = Ok None.
Proof. reflexivity. Qed.

Lemma baseline_loop_unlogged_ok (readings : list (exc (list Q)))
    (acc : list (list Q)) :
  forallb succeeded readings = true ->
  exists samples,
    baseline_loop false readings acc = ([], Ok samples)
    /\ List.length samples = (List.length acc + List.length readings)%nat.
Proof.
  revert acc. induction readings as [|r rest IH]; intros acc Hall.
  - exists acc. split; [reflexivity|simpl; lia].
  - cbn [forallb] in Hall. apply andb_prop in Hall. destruct Hall as [Hr Hrest].
    destruct r as [f|e]; [|discriminate].
    destruct (IH (acc ++ [f]) Hrest) as [samples [Hs Hlen]].
    exists samples. split.
    + cbn [baseline_loop]. rewrite get_system_features_at_Ok, bind_ret.
      exact Hs.
    + rewrite Hlen, length_app. simpl. lia.
Qed.

Lemma baseline_loop_unlogged_raise (readings : list (exc (list Q)))
    (acc : list (list Q)) :
  forallb succeeded readings = false ->
  exists e,
    baseline_loop false readings acc = ([], Raise e)
    /\ exn_class_of e = AttributeError.
Proof.
  revert acc. induction readings as [|r rest IH]; intros acc Hall; [discriminate|].
  cbn [forallb] in Hall. cbn [baseline_loop].
  destruct r as [f|e].
  - cbn [succeeded andb] in Hall.
    rewrite get_system_features_at_Ok, bind_ret.
    apply IH. exact Hall.
  - destruct (get_system_features_at_unlogged e) as [e' [-> He']].
    exists e'. split; [reflexivity|exact He'].
Qed.

Lemma column_value (i : nat) (samples : list (list Q)) :
  (exists xs, column i samples = Ok xs)
  \/ (exists e, column i samples = Raise e /\ exn_class_of e = IndexError).
Proof.
  induction samples as [|s rest IH]; [left; eexists; reflexivity|].
  cbn [column]. unfold item. destruct (nth_error s i);
    [|right; eexists; split; reflexivity].
  destruct IH as [[xs ->]|[e [-> He]]];
    [left; eexists; reflexivity|right; exists e; auto].
Qed.

(** X19: as [__init__] runs it, before the logger exists, the baseline is
    never [None].  When each of the 30 readings succeeds it is computed
    from all 30 (or an IndexError leaves, should a reading be too short);
    when a reading fails, the handler that was to log the failure raises
    AttributeError, and that leaves [_establish_baseline]. *)
Theorem baseline_before_logger (np_mean np_std : list Q -> Q)
    (readings : nat -> exc (list Q)) :
  (forallb succeeded (map readings (seq 0 30)) = true ->
   (exists b, value_of (_establish_baseline np_mean np_std false readings)
              = Ok (Some b))
   \/ (exists e, value_of (_establish_baseline np_mean np_std false readings)
                 = Raise e
                 /\ exn_class_of e = IndexError))
  /\ (forallb succeeded (map readings (seq 0 30)) = false ->
      exists e, value_of (_establish_baseline np_mean np_std false readings)
                = Raise e
                /\ exn_class_of e = AttributeError)
  /\ value_of (_establish_baseline np_mean np_std false readings) <> Ok None.
Proof.
  assert (Hok : forallb succeeded (map readings (seq 0 30)) = true ->
    (exists b, value_of (_establish_baseline np_mean np_std false readings)
               = Ok (Some b))
    \/ (exists e, value_of (_establish_baseline np_mean np_std false readings)
                  = Raise e
                  /\ exn_class_of e = IndexError)).
  { intros Hall.
    destruct (baseline_loop_unlogged_ok _ [] Hall) as [samples [Hs Hlen]].
    unfold _establish_baseline. rewrite Hs.
    rewrite length_map, length_seq in Hlen. cbn [List.length plus] in Hlen.
    cbn [bind]. rewrite Hlen. cbn [Nat.ltb Nat.leb].
    destruct (column_value 0 samples) as [[cpu ->]|[e [-> He]]].
    - rewrite bind_lift_Ok.
      destruct (column_value 1 samples) as [[mem ->]|[e [-> He]]].
      + rewrite bind_lift_Ok. left. eexists. reflexivity.
      + right. exists e. auto.
    - right. exists e. auto. }
  assert (Hbad : forallb succeeded (map readings (seq 0 30)) = false ->
    exists e, value_of (_establish_baseline np_mean np_std false readings)
              = Raise e
              /\ exn_class_of e = AttributeError).
  { intros Hall.
    destruct (baseline_loop_unlogged_raise _ [] Hall) as [e [Hs He]].
    unfold _establish_baseline. rewrite Hs. exists e. auto. }
  split; [exact Hok|]. split; [exact Hbad|].
  destruct (forallb succeeded (map readings (seq 0 30))).
  - destruct (Hok eq_refl) as [[b ->]|[e [-> _]]]; discriminate.
  - destruct (Hbad eq_refl) as [e [-> _]]. discriminate.
Qed.

Lemma baseline_loop_logged (readings : list (exc (list Q))) (acc : list (list Q)) :
  exists samples,
    value_of (baseline_loop true readings acc) = Ok samples
    /\ List.length samples
       = (List.length acc + List.length (filter succeeded readings))%nat.
Proof.
  revert acc. induction readings as [|r rest IH]; intros acc.
  - exists acc. split; [reflexivity|simpl; lia].
  - cbn [baseline_loop filter]. rewrite value_bind.
    destruct r as [f|e]; cbn [succeeded].
    + rewrite get_system_features_at_Ok. cbn [ret value_of snd].
      destruct (IH (acc ++ [f])) as [samples [Hs Hlen]].
      exists samples. split; [exact Hs|].
      cbn [List.length]. rewrite Hlen, length_app. simpl. lia.
    + rewrite get_system_features_at_logged_Raise. apply IH.
Qed.

(** X20: called once the logger is set, [_establish_baseline] returns
    [None] exactly when fewer than 20 of its 30 readings succeed; a failed
    reading is logged and left out. *)
Theorem baseline_needs_twenty_samples (np_mean np_std : list Q -> Q)
    (readings : nat -> exc (list Q)) :
  value_of (_establish_baseline np_mean np_std true readings) = Ok None
  <-> (List.length (filter succeeded (map readings (seq 0 30))) < 20)%nat.
Proof.
  unfold _establish_baseline.
  generalize (map readings (seq 0 30)). intros rs.
  rewrite value_bind.
  destruct (baseline_loop_logged rs []) as [samples [Hs Hlen]].
  rewrite Hs.
  cbn [List.length plus] in Hlen. rewrite <- Hlen.
  destruct (Nat.ltb_spec (List.length samples) 20) as [Hlt|Hge].
  - split; [intros _; exact Hlt|reflexivity].
  - split; [|lia]. rewrite value_bind.
    destruct (column_value 0 samples) as [[cpu Hc]|[e [Hc He]]]; rewrite Hc;
      cbn [lift value_of snd]; [|discriminate].
    rewrite value_bind.
    destruct (column_value 1 samples) as [[mem Hm]|[e [Hm He]]]; rewrite Hm;
      cbn [lift value_of snd]; discriminate.
Qed.

(** ** The feature extractor *)

(** X21: with the five system readings at hand, [get_system_features]
    returns them alone when no process is listed, three values of the one
    process and the five readings when one is, and otherwise the three
    values of each of the first two processes followed by the first four
    readings: never more than two processes are read, and with two the
    fifth reading (the bytes sent) is cut off by the limit of 10. *)
Theorem extractor_reads_two_processes (A : Type)
    (procs : list (feature_extractor.proc_row A)) (c v n d b : A) :
  feature_extractor.get_system_features A procs (Ok c) (Ok v) (Ok n) (Ok d) (Ok b)
  = Ok (match procs with
        | [] => [c; v; n; d; b]
        | [p] => feature_extractor.row_values A p ++ [c; v; n; d; b]
        | p1 :: p2 :: _ =>
            feature_extractor.row_values A p1
            ++ feature_extractor.row_values A p2 ++ [c; v; n; d]
        end).
Proof.
  unfold feature_extractor.get_system_features.
  destruct procs as [|p1 [|p2 rest]]; reflexivity.
Qed.
